(** * Enders-Sync: the RPC dispatcher of [src/server.ts]

    A shallow embedding of the class [RPC] (method registry, authorization
    gate, handler invocation, error classification) and proofs of its
    documented contracts.  The embedding follows the first module of
    [src/server.ts] (the one with [RPCError] and status codes). *)

From Stdlib Require Import PrimFloat String Ascii List Bool.
Import ListNotations.
Open Scope string_scope.

(** ** JavaScript values *)

(** A JavaScript [number] is an IEEE 754 double. *)
Definition number := float.

(** The values a request body, a parameter list or a handler result can
    hold.  [JUndefined] is also what reading an absent property yields. *)
#[warnings="-register-all"]
Inductive JsVal : Type :=
| JUndefined
| JNull
| JBool (b : bool)
| JNum (n : number)
| JStr (s : string)
| JArr (items : list JsVal)
| JObj (props : list (string * JsVal)).

(** ToBoolean: [undefined], [null], [false], [0], [-0], [NaN] and the empty
    string are falsy, every array and object is truthy. *)
Definition truthy (v : JsVal) : bool :=
  match v with
  | JUndefined | JNull => false
  | JBool b => b
  | JNum n => negb (PrimFloat.eqb n 0 || PrimFloat.is_nan n)
  | JStr s => negb (s =? "")
  | JArr _ | JObj _ => true
  end.

(** [Array.isArray(v)] *)
Definition isArray (v : JsVal) : bool :=
  match v with JArr _ => true | _ => false end.

(** [v === false] *)
Definition strictly_false (v : JsVal) : bool :=
  match v with JBool false => true | _ => false end.

(** [a || b] *)
Definition or_else (a b : JsVal) : JsVal := if truthy a then a else b.

(** The double quote character, for messages that quote a word. *)
Definition dquote : string := String "034"%char EmptyString.

(** [hay.includes(needle)] *)
Fixpoint includes (needle hay : string) : bool :=
  String.prefix needle hay ||
  match hay with
  | EmptyString => false
  | String _ rest => includes needle rest
  end.

(** ** [Map<string, V>]: an association list in insertion order *)

Module Map.

Definition t (V : Type) := list (string * V).

(** [new Map()] *)
Definition empty {V : Type} : t V := [].

(** [m.get(k)]: [None] stands for [undefined]. *)
Fixpoint get {V : Type} (m : t V) (k : string) : option V :=
  match m with
  | [] => None
  | (k', v) :: rest => if k' =? k then Some v else get rest k
  end.

(** [m.set(k, v)]: an existing key keeps its position and takes the new
    value, a new key goes last. *)
Fixpoint set {V : Type} (m : t V) (k : string) (v : V) : t V :=
  match m with
  | [] => [(k, v)]
  | (k', v') :: rest =>
      if k' =? k then (k, v) :: rest else (k', v') :: set rest k v
  end.

(** [Array.from(m.keys())] *)
Definition keys {V : Type} (m : t V) : list string := map fst m.

End Map.

(** ** The data model of [server.ts] *)

(** The part of an Express request this repository reads. *)
Record Request : Type := {
  headers_cookie : option string;
  cookies : list (string * string);
  body : JsVal
}.

(** The Express response object; the dispatcher only hands it on. *)
Record Response : Type := { response_id : nat }.

Record RPCRequest : Type := {
  method : JsVal;
  params : JsVal;
  version : JsVal
}.

Record RPCResponse : Type := {
  success : bool;
  data : option JsVal;
  error : option string;
  code : number
}.

(** A value of [Record<string, string | number>]. *)
Inductive AuthValue : Type :=
| AuthStr (s : string)
| AuthNum (n : number).

Record Metadata : Type := {
  auth : list (string * AuthValue);
  req : option Request;
  res : option Response
}.

Record RPCError : Type := {
  error_label : string;
  error_params : list (string * string);
  status_code : number
}.

(** ** Exceptions, promises and the effects of a call *)

(** What a [throw] or a rejected promise carries. *)
Inductive Thrown : Type :=
| ThrownRPCError (e : RPCError)
| ThrownError (message : string)
| ThrownValue (v : JsVal).

Inductive Completion (A : Type) : Type :=
| Normal (a : A)
| Throw (e : Thrown).
Arguments Normal {A} a.
Arguments Throw {A} e.

(** An object the validator made to be the handler's context, as the
    assignments [metadata.req = req; metadata.res = res] find it: its
    properties, and what those assignments throw on it, if anything (the
    module is in strict mode, where a frozen or non-extensible object
    answers such an assignment with a [TypeError]). *)
Record MetadataObject : Type := {
  properties : Metadata;
  refuses : option Thrown
}.

(** [metadata.req = req; metadata.res = res]: the context with both set,
    or what the object throws at them. *)
Definition assign_request (metadata : MetadataObject)
  (req : Request) (res : Response) : Completion Metadata :=
  match refuses metadata with
  | Some e => Throw e
  | None => Normal {| auth := auth (properties metadata);
                      req := Some req; res := Some res |}
  end.

Module ValidatorReturn.
Record t : Type := {
  success : JsVal;
  metadata : option MetadataObject
}.
End ValidatorReturn.

(** What a handler hands back: a plain value or a settled promise. *)
Inductive Awaitable : Type :=
| Plain (v : JsVal)
| Fulfilled (v : JsVal)
| Rejected (e : Thrown).

(** The value of [await r]. *)
Definition settle (r : Awaitable) : Completion JsVal :=
  match r with
  | Plain v | Fulfilled v => Normal v
  | Rejected e => Throw e
  end.

(** [...v] in an argument list. *)
Definition spread (v : JsVal) : Completion (list JsVal) :=
  match v with
  | JArr items => Normal items
  | JStr s =>
      Normal (map (fun c => JStr (String c EmptyString)) (list_ascii_of_string s))
  | _ => Throw (ThrownError "TypeError: Spread syntax requires ...iterable")
  end.

(** What [console.error] is given. *)
Inductive LogEntry : Type :=
| LogText (s : string)
| LogThrown (e : Thrown).

(** Everything the dispatcher does besides computing its result: the calls
    it makes to the functions the host registered, and its log lines. *)
Inductive Event : Type :=
| Validated (req : Request)
| Invoked (methodName : string) (metadata : Metadata) (args : list JsVal)
| Rendered (label : string) (params : list (string * string))
| ConsoleError (entry : LogEntry).

(** ** The class [RPC] *)

Section Dispatcher.

(** The state of the host application that the registered functions read
    and write (a database, counters, the connection). *)
Variable World : Type.

(** A call into a function the host registered: it may change the host's
    state and it may throw. *)
Definition Effect (A : Type) : Type := World -> Completion A * World.

(** A function value: its [name] property and what calling it does. *)
Record RPCHandler : Type := {
  name : string;
  call : Metadata -> list JsVal -> Effect Awaitable
}.

Definition Validator : Type := Request -> Effect ValidatorReturn.t.

Definition RPCErrorHandler : Type := list (string * string) -> Effect string.

Record RPC : Type := {
  error_handlers_registry : Map.t RPCErrorHandler;
  functions : Map.t RPCHandler;
  validator : Validator
}.

(** The dispatcher's own state: the host's world and the events so far. *)
Record Store : Type := {
  world : World;
  trace : list Event
}.

(** A computation of the dispatcher: it threads the store and completes
    normally or by a throw (a rejected promise, for an [async] method). *)
Definition JS (A : Type) : Type := Store -> Completion A * Store.

Definition ret {A : Type} (a : A) : JS A := fun s => (Normal a, s).

Definition bind {A B : Type} (m : JS A) (k : A -> JS B) : JS B :=
  fun s =>
    match m s with
    | (Normal a, s') => k a s'
    | (Throw e, s') => (Throw e, s')
    end.

(** [try { body } catch (error) { handle error }] *)
Definition try_catch {A : Type} (body : JS A) (handle : Thrown -> JS A) : JS A :=
  fun s =>
    match body s with
    | (Normal a, s') => (Normal a, s')
    | (Throw e, s') => handle e s'
    end.

Definition lift {A : Type} (c : Completion A) : JS A := fun s => (c, s).

Definition emit (ev : Event) : JS unit :=
  fun s => (Normal tt, {| world := world s; trace := trace s ++ [ev] |}).

(** Calling a registered function: the call is recorded, then the function
    runs on the host's world. *)
Definition call_out {A : Type} (ev : Event) (f : Effect A) : JS A :=
  fun s =>
    let (c, w) := f (world s) in
    (c, {| world := w; trace := trace s ++ [ev] |}).

(** [await p] *)
Definition await (p : JS Awaitable) : JS JsVal :=
  bind p (fun r => lift (settle r)).

Definition console_error (entry : LogEntry) : JS unit :=
  emit (ConsoleError entry).

Notation "x <- m ;; k" := (bind m (fun x => k))
  (at level 61, m at next level, right associativity).
Notation "m ;;; k" := (bind m (fun _ => k))
  (at level 61, right associativity).

(** [public validator: Validator = () => { return { success: true }; }] *)
Definition default_validator : Validator :=
  fun _ w =>
    (Normal {| ValidatorReturn.success := JBool true;
               ValidatorReturn.metadata := None |}, w).

(** [new RPC()] *)
Definition new_RPC : RPC :=
  {| error_handlers_registry := Map.empty;
     functions := Map.empty;
     validator := default_validator |}.

(** [rpc.validator = validator], as [createRPC] does. *)
Definition set_validator (this : RPC) (v : Validator) : RPC :=
  {| error_handlers_registry := error_handlers_registry this;
     functions := functions this;
     validator := v |}.

(** [RPC.handleError] *)
Definition handleError (this : RPC) (label : string)
  (error_handler : RPCErrorHandler) : RPC :=
  {| error_handlers_registry :=
       Map.set (error_handlers_registry this) label error_handler;
     functions := functions this;
     validator := validator this |}.

(** [RPC.handler] *)
Definition handler (this : RPC) (requestData : RPCRequest)
  (req : Request) (res : Response) : JS RPCResponse :=
  let methodName := method requestData in
  let params := params requestData in
  if negb (truthy methodName) then
    ret {| success := false;
           code := 400%float;
           error := Some ("bad request: the request need to have " ++ dquote
                          ++ "method" ++ dquote ++ " and " ++ dquote
                          ++ "params" ++ dquote);
           data := None |}
  else
  match methodName with
  | JStr methodName =>
    if truthy params && negb (isArray params) then
      ret {| success := false;
             error := Some "bad request: RPC params should be a list";
             code := 400%float;
             data := None |}
    else
    (* obtaining RPC method from lookup *)
    match Map.get (functions this) methodName with
    | None =>
      ret {| success := false;
             error := Some ("RPC function '" ++ methodName ++ "' not found");
             code := 400%float;
             data := None |}
    | Some functionHandler =>
      (* running auth validator that is specified by the user *)
      validation <- call_out (Validated req) (validator this req) ;;
      if strictly_false (ValidatorReturn.success validation) then
        ret {| success := false;
               error := Some "authorization failed";
               code := 403%float;
               data := None |}
      else
      (* passing requests to metadata *)
      let metadata :=
        match ValidatorReturn.metadata validation with
        | Some m => m
        | None => {| properties := {| auth := []; req := None; res := None |};
                     refuses := None |}
        end in
      metadata <- lift (assign_request metadata req res) ;;
      (* RPC call *)
      try_catch
        (result <- await
           (args <- lift (spread (or_else params (JArr []))) ;;
            call_out (Invoked methodName metadata args)
                     (call functionHandler metadata args)) ;;
         ret {| success := true;
                data := Some result;
                code := 200%float;
                error := None |})
        (fun error =>
           match error with
           | ThrownRPCError error =>
             match Map.get (error_handlers_registry this) (error_label error) with
             | None =>
               console_error
                 (LogText ("unhandled exception for label " ++ dquote
                           ++ error_label error ++ dquote)) ;;;
               ret {| success := false;
                      error := Some "Error 500: operation failed";
                      code := 500%float;
                      data := None |}
             | Some error_handler =>
               error_msg <- call_out
                 (Rendered (error_label error) (error_params error))
                 (error_handler (error_params error)) ;;
               ret {| success := false;
                      error := Some error_msg;
                      code := status_code error;
                      data := None |}
             end
           | _ =>
             console_error (LogThrown error) ;;;
             ret {| success := false;
                    error := Some "Error 500: operation failed";
                    code := 500%float;
                    data := None |}
           end)
    end
  | _ =>
    ret {| success := false;
           code := 404%float;
           error := Some "bad request: RPC function doesn't exist";
           data := None |}
  end.

(** [RPC.dump] *)
Definition dump (this : RPC) : list string :=
  Map.keys (functions this).

(** [RPC.add]: [optional_name] is [None] for [null], the default. *)
Definition add (this : RPC) (functionHandler : RPCHandler)
  (optional_name : option string) : Completion RPC :=
  let func_name :=
    match optional_name with
    | Some n => if negb (n =? "") then n else name functionHandler
    | None => name functionHandler
    end in
  if func_name =? "" then
    Throw (ThrownError "Function must have a name")
  else
    Normal {| error_handlers_registry := error_handlers_registry this;
              functions := Map.set (functions this) func_name functionHandler;
              validator := validator this |}.

End Dispatcher.

Arguments name {World} _.
Arguments call {World} _ _ _ _.
Arguments error_handlers_registry {World} _.
Arguments functions {World} _.
Arguments validator {World} _ _ _.
Arguments world {World} _.
Arguments trace {World} _.
Arguments ret {World A} a _.
Arguments bind {World A B} m k _.
Arguments try_catch {World A} body handle _.
Arguments lift {World A} c _.
Arguments emit {World} ev _.
Arguments call_out {World A} ev f _.
Arguments await {World} p _.
Arguments console_error {World} entry _.
Arguments set_validator {World} this v.
Arguments handleError {World} this label error_handler.
Arguments handler {World} this requestData req res _.
Arguments dump {World} this.
Arguments add {World} this functionHandler optional_name.

(** ** Vocabulary of the specification *)

(** [typeof v === 'string'] *)
Definition is_string (v : JsVal) : bool :=
  match v with JStr _ => true | _ => false end.

(** A request that gets past the three shape checks of [RPC.handler], its
    method being the string [k]. *)
Definition passes_shape_validation (rq : RPCRequest) (k : string) : Prop :=
  method rq = JStr k /\ k <> "" /\
  (truthy (params rq) = false \/ isArray (params rq) = true).

(** The arguments a handler gets after the context: the entries of
    [params], none when [params] is falsy. *)
Definition arguments_of (params : JsVal) : list JsVal :=
  match params with JArr items => items | _ => [] end.

(** The context a handler gets: the validator's metadata, or an empty
    [auth] mapping, with the request and the response attached. *)
Definition context_of (validation : ValidatorReturn.t)
  (req : Request) (res : Response) : Metadata :=
  let metadata :=
    match ValidatorReturn.metadata validation with
    | Some m => m
    | None => {| properties := {| auth := []; req := None; res := None |};
                 refuses := None |}
    end in
  {| auth := auth (properties metadata); req := Some req; res := Some res |}.

(** What the assignments of [req] and [res] throw on the validator's
    metadata: nothing on an ordinary object, and nothing when there is no
    metadata, the dispatcher's own [{ auth: {} }] taking them. *)
Definition metadata_refusal (validation : ValidatorReturn.t) : option Thrown :=
  match ValidatorReturn.metadata validation with
  | Some m => refuses m
  | None => None
  end.

(** How a handler's call ends for the dispatcher that awaits it: with the
    value returned or fulfilled, or with what was thrown or rejected. *)
Definition outcome (c : Completion Awaitable) : Completion JsVal :=
  match c with
  | Normal r => settle r
  | Throw e => Throw e
  end.

(** The name [RPC.add] registers a handler under. *)
Definition registered_name {World : Type}
  (reg : RPCHandler World * option string) : string :=
  match snd reg with
  | Some n => if n =? "" then name (fst reg) else n
  | None => name (fst reg)
  end.

(** A setup phase: the registrations of [regs], in order; it stops at the
    first [add] that throws. *)
Fixpoint register_all {World : Type} (this : RPC World)
  (regs : list (RPCHandler World * option string)) : Completion (RPC World) :=
  match regs with
  | [] => Normal this
  | (fh, n) :: rest =>
      match add this fh n with
      | Normal this' => register_all this' rest
      | Throw e => Throw e
      end
  end.

(** Insertion order of a sequence of keys: each key at the place of its
    first occurrence. *)
Fixpoint first_occurrences (ks : list string) : list string :=
  match ks with
  | [] => []
  | k :: rest => k :: filter (fun k' => negb (k' =? k)) (first_occurrences rest)
  end.

(** [k] is among [ks]. *)
Definition among (ks : list string) (k : string) : bool :=
  existsb (String.eqb k) ks.

(** What [add] maintains on the registry: no name twice, no empty name. *)
Definition registry_ok {World : Type} (this : RPC World) : Prop :=
  NoDup (dump this) /\ ~ In "" (dump this).

(** The renderer the [catch] block finds for a failure, if any. *)
Definition renderer_of {World : Type} (this : RPC World) (e : Thrown)
  : option (RPCErrorHandler World) :=
  match e with
  | ThrownRPCError e => Map.get (error_handlers_registry this) (error_label e)
  | _ => None
  end.

(** What the [catch] block logs for a failure it does not render. *)
Definition logged_for (e : Thrown) : LogEntry :=
  match e with
  | ThrownRPCError e =>
      LogText ("unhandled exception for label " ++ dquote
               ++ error_label e ++ dquote)
  | _ => LogThrown e
  end.

(** The rest of [RPC.handler] once the lookup of [methodName] has found
    [functionHandler]: authorization, invocation, classification. *)
Definition dispatch_to {World : Type} (this : RPC World) (methodName : string)
  (functionHandler : RPCHandler World) (params : JsVal)
  (req : Request) (res : Response) : JS World RPCResponse :=
  bind (call_out (Validated req) (validator this req)) (fun validation =>
  if strictly_false (ValidatorReturn.success validation) then
    ret {| success := false;
           error := Some "authorization failed";
           code := 403%float;
           data := None |}
  else
  let metadata :=
    match ValidatorReturn.metadata validation with
    | Some m => m
    | None => {| properties := {| auth := []; req := None; res := None |};
                 refuses := None |}
    end in
  bind (lift (assign_request metadata req res)) (fun metadata =>
  try_catch
    (bind (await
       (bind (lift (spread (or_else params (JArr [])))) (fun args =>
        call_out (Invoked methodName metadata args)
                 (call functionHandler metadata args))))
       (fun result =>
        ret {| success := true;
               data := Some result;
               code := 200%float;
               error := None |}))
    (fun error =>
       match error with
       | ThrownRPCError error =>
         match Map.get (error_handlers_registry this) (error_label error) with
         | None =>
           bind (console_error
                   (LogText ("unhandled exception for label " ++ dquote
                             ++ error_label error ++ dquote)))
             (fun _ =>
              ret {| success := false;
                     error := Some "Error 500: operation failed";
                     code := 500%float;
                     data := None |})
         | Some error_handler =>
           bind (call_out (Rendered (error_label error) (error_params error))
                          (error_handler (error_params error)))
             (fun error_msg =>
              ret {| success := false;
                     error := Some error_msg;
                     code := status_code error;
                     data := None |})
         end
       | _ =>
         bind (console_error (LogThrown error)) (fun _ =>
         ret {| success := false;
                error := Some "Error 500: operation failed";
                code := 500%float;
                data := None |})
       end))).

(** What a dispatch adds to the trace is one of five runs. *)
Definition dispatch_run (req : Request) (events : list Event) : Prop :=
  events = [] \/
  events = [Validated req] \/
  exists k ctx args,
    events = [Validated req; Invoked k ctx args] \/
    (exists label ps,
       events = [Validated req; Invoked k ctx args; Rendered label ps]) \/
    (exists entry,
       events = [Validated req; Invoked k ctx args; ConsoleError entry]).

(** ** The HTTP binding: [createRPC] and [cookieParser] *)

Definition api_version : number := 1%float.

Definition least_supported_client_version : string := "0.2.1".

(** [v === n] for a number [n]: IEEE equality on numbers, false for every
    other type. *)
Definition strict_equal_number (v : JsVal) (n : number) : bool :=
  match v with JNum m => PrimFloat.eqb m n | _ => false end.

(** An own property of an object literal, [undefined] when it is not
    there. *)
Fixpoint lookup_prop (props : list (string * JsVal)) (k : string) : JsVal :=
  match props with
  | [] => JUndefined
  | (k', v) :: rest => if k' =? k then v else lookup_prop rest k
  end.

(** [v.k] for the names a request body is read at ([method], [params],
    [version]) on a truthy [v]: arrays, strings, numbers and booleans have
    no such property. *)
Definition prop (v : JsVal) (k : string) : JsVal :=
  match v with
  | JObj props => lookup_prop props k
  | _ => JUndefined
  end.

(** [Object.keys(v).length === 0] on a truthy [v]: the keys of an object
    are its properties, those of an array or a string its indices, and a
    number or a boolean has none. *)
Definition has_no_keys (v : JsVal) : bool :=
  match v with
  | JObj [] | JArr [] => true
  | JObj _ | JArr _ => false
  | JStr s => s =? ""
  | _ => true
  end.

(** The body of a request read as an [RPCRequest]. *)
Definition as_request (requestData : JsVal) : RPCRequest :=
  {| method := prop requestData "method";
     params := prop requestData "params";
     version := prop requestData "version" |}.

(** What is handed to [res.json]. *)
Inductive ReplyBody : Type :=
| ErrorBody (error : string)
| EnvelopeBody (result : RPCResponse).

(** What [createRPC] puts on the application's stack. *)
Inductive Layer : Type :=
| Use_cookieParser
| Post (path : string).

(** The part of an Express application [createRPC] reads and writes: its
    settings table ([app.get(name)], [app.set(name, value)]) and the stack
    of middleware and routes ([app.use], [app.post]). *)
Record App : Type := {
  settings : Map.t JsVal;
  stack : list Layer
}.

(** [app.get(name)] *)
Definition app_get (app : App) (setting : string) : JsVal :=
  match Map.get (settings app) setting with
  | Some v => v
  | None => JUndefined
  end.

Section Http.

Variable World : Type.

(** [res.status(code).json(body)]: Express sends the reply.  It belongs to
    the host, and it may throw. *)
Variable status_json : Response -> number -> ReplyBody -> Effect World unit.

(** [cookie.parse], of the package [cookie]. *)
Variable cookie_parse : string -> list (string * string).

(** A call into the host that the dispatcher does not record. *)
Definition host_call {A : Type} (f : Effect World A) : JS World A :=
  fun s =>
    let (c, w) := f (world s) in
    (c, {| world := w; trace := trace s |}).

(** [cookieParser], with [next] the rest of the middleware chain. *)
Definition cookieParser {A : Type} (req : Request) (next : Request -> A) : A :=
  match headers_cookie req with
  | None => next req
  | Some raw_cookies =>
      if raw_cookies =? "" then next req
      else next {| headers_cookie := headers_cookie req;
                   cookies := cookie_parse raw_cookies;
                   body := body req |}
  end.

(** The route [createRPC] mounts at [path/call], for the [rpc] it
    returned as that object stands when the request arrives. *)
Definition call_route (rpc : RPC World) (req : Request) (res : Response)
  : JS World unit :=
  try_catch
    (let requestData := body req in
     if negb (truthy requestData) || has_no_keys requestData then
       host_call (status_json res 400%float (ErrorBody "Invalid JSON"))
     else if negb (strict_equal_number (prop requestData "version") api_version) then
       host_call (status_json res 400%float
         (ErrorBody ("Invalid API version: make sure you are using the version of the client >= "
                     ++ least_supported_client_version)))
     else
       bind (handler rpc (as_request requestData) req res) (fun result =>
       host_call (status_json res (code result) (EnvelopeBody result))))
    (fun error =>
       host_call (status_json res 500%float (ErrorBody "Internal server error 500"))).

(** [createRPC]: the new [RPC] and the application as it leaves it. *)
Definition createRPC (app : App) (path : string) (validator : Validator World)
  : RPC World * App :=
  let rpc := set_validator (new_RPC World) validator in
  let app :=
    if negb (truthy (app_get app "enders-sync-dependencies-loaded")) then
      {| settings := Map.set (settings app) "enders-sync-dependencies-loaded"
                             (JBool true);
         stack := stack app ++ [Use_cookieParser] |}
    else app in
  (rpc, {| settings := settings app;
           stack := stack app ++ [Post (path ++ "/call")] |}).

(** The route a mount adds. *)
Definition call_path (mount : string * Validator World) : Layer :=
  Post (fst mount ++ "/call").

(** A setup phase: one [createRPC] per mount point, in order. *)
Fixpoint mount_all (app : App) (mounts : list (string * Validator World)) : App :=
  match mounts with
  | [] => app
  | (path, validator) :: rest => mount_all (snd (createRPC app path validator)) rest
  end.

End Http.

Arguments host_call {World A} f _.
Arguments cookieParser cookie_parse {A} req next.
Arguments call_route {World} status_json rpc req res _.
Arguments createRPC {World} app path validator.
Arguments mount_all {World} app mounts.
Arguments call_path {World} mount.

(** ** The first version of the server ([part_000]) *)

(** [s.split(sep)] for a separator of one character. *)
Fixpoint split_on (sep : ascii) (s : string) : list string :=
  match s with
  | EmptyString => [EmptyString]
  | String c rest =>
      if Ascii.eqb c sep then EmptyString :: split_on sep rest
      else match split_on sep rest with
           | [] => [String c EmptyString]
           | segment :: segments => String c segment :: segments
           end
  end.

(** [parts.join(sep)] *)
Fixpoint join (sep : string) (parts : list string) : string :=
  match parts with
  | [] => ""
  | [part] => part
  | part :: rest => part ++ sep ++ join sep rest
  end.

(** [s.includes(c)] for one character. *)
Fixpoint has_char (c : ascii) (s : string) : bool :=
  match s with
  | EmptyString => false
  | String c' rest => Ascii.eqb c' c || has_char c rest
  end.

(** [items.map(f)] for an [f] that may throw: the first throw ends it. *)
Fixpoint map_completion {A B : Type} (f : A -> Completion B) (items : list A)
  : Completion (list B) :=
  match items with
  | [] => Normal []
  | item :: rest =>
      match f item with
      | Throw e => Throw e
      | Normal b =>
          match map_completion f rest with
          | Throw e => Throw e
          | Normal bs => Normal (b :: bs)
          end
      end
  end.

(** [Object.fromEntries(entries)], to be read through [Map.get]: a later
    entry replaces an earlier one of the same key. *)
Definition fromEntries (entries : list (string * string)) : Map.t string :=
  fold_left (fun object entry => Map.set object (fst entry) (snd entry))
            entries Map.empty.

(** The text before the first [c] of [s] (all of [s] when there is none)
    and the text after it (nothing when there is none). *)
Fixpoint before_first (c : ascii) (s : string) : string :=
  match s with
  | EmptyString => EmptyString
  | String a rest => if Ascii.eqb a c then EmptyString
                     else String a (before_first c rest)
  end.

Fixpoint after_first (c : ascii) (s : string) : string :=
  match s with
  | EmptyString => EmptyString
  | String a rest => if Ascii.eqb a c then rest else after_first c rest
  end.

Module V0.

Record RPCRequest : Type := {
  method : JsVal;
  params : JsVal
}.

(** [data] is the handler's result as it is: this version does not await
    it. *)
Record RPCResponse : Type := {
  success : bool;
  data : option Awaitable;
  error : option string
}.

Definition AuthMetadata : Type := list (string * AuthValue).

Module ValidatorReturn.
Record t : Type := {
  success : JsVal;
  metadata : option AuthMetadata
}.
End ValidatorReturn.

(** What is handed to [res.json]. *)
Inductive ReplyBody : Type :=
| NamesBody (names : list string)
| ErrorBody (error : string).

Section Server.

Variable World : Type.

(** [String.prototype.trim] and [decodeURIComponent], which throws a
    [URIError] on a malformed escape. *)
Variable trim : string -> string.
Variable decodeURIComponent : string -> Completion string.

(** [String(error)] for what is thrown that is not an [Error]. *)
Variable String_of : Thrown -> string.

(** [res.json(body)] and [res.status(code).json(body)] of Express. *)
Variable json : Response -> ReplyBody -> Effect World unit.
Variable status_json : Response -> number -> ReplyBody -> Effect World unit.

(** The handler gets [validation.metadata!], which may be [undefined]. *)
Record RPCHandler : Type := {
  name : string;
  call : option AuthMetadata -> list JsVal -> Effect World Awaitable
}.

Definition Validator : Type := string -> Effect World ValidatorReturn.t.

Record RPC : Type := {
  functions : Map.t RPCHandler;
  validator : Validator
}.

(** [new RPC()] with its default validator
    [() => { return { success: true, metadata: {} } }]. *)
Definition new_RPC : RPC :=
  {| functions := Map.empty;
     validator := fun _ w =>
       (Normal {| ValidatorReturn.success := JBool true;
                  ValidatorReturn.metadata := Some [] |}, w) |}.

(** [RPC.handler] *)
Definition handler (this : RPC) (requestData : RPCRequest) (cookie : string)
  : JS World RPCResponse :=
  let methodName := method requestData in
  let params := params requestData in
  if negb (truthy methodName) then
    ret {| success := false;
           error := Some ("bad request: the request need to have " ++ dquote
                          ++ "method" ++ dquote ++ " and " ++ dquote
                          ++ "params" ++ dquote);
           data := None |}
  else
  match methodName with
  | JStr methodName =>
    if truthy params && negb (isArray params) then
      ret {| success := false;
             error := Some "bad request: RPC params should be a list";
             data := None |}
    else
    (* RPC call *)
    match Map.get (functions this) methodName with
    | None =>
      ret {| success := false;
             error := Some ("RPC function '" ++ methodName ++ "' not found");
             data := None |}
    | Some functionHandler =>
      bind (host_call (validator this cookie)) (fun validation =>
      if strictly_false (ValidatorReturn.success validation) then
        ret {| success := false;
               error := Some "Authentication failed";
               data := None |}
      else
      try_catch
        (bind (bind (lift (spread (or_else params (JArr [])))) (fun args =>
               host_call (call functionHandler
                               (ValidatorReturn.metadata validation) args)))
           (fun result =>
            ret {| success := true;
                   data := Some result;
                   error := None |}))
        (fun error =>
           bind (console_error (LogThrown error)) (fun _ =>
           ret {| success := false;
                  error := Some match error with
                                | ThrownError message => message
                                | _ => String_of error
                                end;
                  data := None |})))
    end
  | _ =>
    ret {| success := false;
           error := Some "bad request: RPC function doesn't exist";
           data := None |}
  end.

(** [RPC.dump] *)
Definition dump (this : RPC) : list string :=
  Map.keys (functions this).

(** [RPC.add] *)
Definition add (this : RPC) (functionHandler : RPCHandler) : Completion RPC :=
  let funcName := name functionHandler in
  if funcName =? "" then
    Throw (ThrownError "Function must have a name")
  else
    Normal {| functions := Map.set (functions this) funcName functionHandler;
              validator := validator this |}.

(** One entry of the cookie header: [[k, ...rest] = v.split("=")], then
    [[k.trim(), decodeURIComponent(rest.join("="))]]. *)
Definition cookie_entry (v : string) : Completion (string * string) :=
  match split_on "=" v with
  | [] => Throw (ThrownError "TypeError: Cannot read properties of undefined")
  | k :: rest =>
      match decodeURIComponent (join "=" rest) with
      | Normal value => Normal (trim k, value)
      | Throw e => Throw e
      end
  end.

(** [cookieParser]: the request as it is handed to [next], or what the
    parsing throws. *)
Definition cookieParser (req : Request) : Completion Request :=
  match headers_cookie req with
  | Some (String c rest as header) =>
      match map_completion cookie_entry (split_on ";" header) with
      | Normal entries =>
          Normal {| headers_cookie := headers_cookie req;
                    cookies := fromEntries entries;
                    body := body req |}
      | Throw e => Throw e
      end
  | _ =>
      Normal {| headers_cookie := headers_cookie req;
                cookies := [];
                body := body req |}
  end.

(** The route [useExpressRPC] mounts at [path/discover]. *)
Definition discover_route (rpc : RPC) (req : Request) (res : Response)
  : JS World unit :=
  try_catch
    (let rpcList := dump rpc in
     host_call (json res (NamesBody rpcList)))
    (fun error =>
       host_call (status_json res 500%float (ErrorBody "Internal server error"))).

(** A setup phase: the registrations of [handlers], in order. *)
Fixpoint register_all (this : RPC) (handlers : list RPCHandler) : Completion RPC :=
  match handlers with
  | [] => Normal this
  | functionHandler :: rest =>
      match add this functionHandler with
      | Normal this' => register_all this' rest
      | Throw e => Throw e
      end
  end.

End Server.

Arguments name {World} _.
Arguments call {World} _ _ _ _.
Arguments functions {World} _.
Arguments validator {World} _ _ _.
Arguments handler {World} String_of this requestData cookie _.
Arguments dump {World} this.
Arguments add {World} this functionHandler.
Arguments discover_route {World} json status_json rpc req res _.
Arguments register_all {World} this handlers.

End V0.

(** ** The second version of the server (the second module of
    [server.ts]) *)

Module V1.

Record RPCResponse : Type := {
  success : bool;
  data : option JsVal;
  error : option string
}.

(** What is handed to [res.json]. *)
Inductive ReplyBody : Type :=
| ErrorBody (error : string)
| EnvelopeBody (result : RPCResponse).

Section Server.

Variable World : Type.

(** [String(error)], also what a template literal makes of [error]. *)
Variable String_of : Thrown -> string.

(** [res.json(body)] and [res.status(code).json(body)] of Express. *)
Variable json : Response -> ReplyBody -> Effect World unit.
Variable status_json : Response -> number -> ReplyBody -> Effect World unit.

Record RPC : Type := {
  functions : Map.t (RPCHandler World);
  validator : Validator World
}.

(** [RPC.handler] *)
Definition handler (this : RPC) (requestData : RPCRequest)
  (req : Request) (res : Response) : JS World RPCResponse :=
  let methodName := method requestData in
  let params := params requestData in
  if negb (truthy methodName) then
    ret {| success := false;
           error := Some ("bad request: the request need to have " ++ dquote
                          ++ "method" ++ dquote ++ " and " ++ dquote
                          ++ "params" ++ dquote);
           data := None |}
  else
  match methodName with
  | JStr methodName =>
    if truthy params && negb (isArray params) then
      ret {| success := false;
             error := Some "bad request: RPC params should be a list";
             data := None |}
    else
    (* obtaining RPC from lookup *)
    match Map.get (functions this) methodName with
    | None =>
      ret {| success := false;
             error := Some ("RPC function '" ++ methodName ++ "' not found");
             data := None |}
    | Some functionHandler =>
      (* running auth validator *)
      bind (call_out (Validated req) (validator this req)) (fun validation =>
      if strictly_false (ValidatorReturn.success validation) then
        ret {| success := false;
               error := Some "Authentication failed";
               data := None |}
      else
      (* passing requests to metadata *)
      let metadata :=
        match ValidatorReturn.metadata validation with
        | Some m => m
        | None => {| properties := {| auth := []; req := None; res := None |};
                     refuses := None |}
        end in
      bind (lift (assign_request metadata req res)) (fun metadata =>
      (* RPC call *)
      try_catch
        (bind (await
           (bind (lift (spread (or_else params (JArr [])))) (fun args =>
            call_out (Invoked methodName metadata args)
                     (call functionHandler metadata args))))
           (fun result =>
            ret {| success := true;
                   data := Some result;
                   error := None |}))
        (fun error =>
           bind (console_error (LogThrown error)) (fun _ =>
           ret {| success := false;
                  error := Some match error with
                                | ThrownError message => message
                                | _ => String_of error
                                end;
                  data := None |}))))
    end
  | _ =>
    ret {| success := false;
           error := Some "bad request: RPC function doesn't exist";
           data := None |}
  end.

(** The route [createRPC] mounts at [path/call]. *)
Definition call_route (rpc : RPC) (req : Request) (res : Response)
  : JS World unit :=
  try_catch
    (let requestData := body req in
     if negb (truthy requestData) || has_no_keys requestData then
       host_call (status_json res 400%float (ErrorBody "Invalid JSON"))
     else if negb (strict_equal_number (prop requestData "version") api_version) then
       host_call (status_json res 400%float
         (ErrorBody ("Invalid API version: make sure you are using the version of the client >= "
                     ++ least_supported_client_version)))
     else
       bind (handler rpc (as_request requestData) req res) (fun result =>
       host_call (json res (EnvelopeBody result))))
    (fun error =>
       host_call (status_json res 500%float
         (ErrorBody ("Internal server error " ++ String_of error)))).

End Server.

Arguments functions {World} _.
Arguments validator {World} _ _ _.
Arguments handler {World} String_of this requestData req res _.
Arguments call_route {World} String_of json status_json rpc req res _.

End V1.

(** ** A sample host, for the examples *)

Module Sample.

(** The host's world is a counter of handler calls. *)
Definition World : Type := nat.

Definition request : Request :=
  {| headers_cookie := Some "token=abc"; cookies := [("token", "abc")];
     body := JNull |}.

Definition response : Response := {| response_id := 0 |}.

Definition start : Store World := {| world := 0; trace := [] |}.

(** [function echo(ctx, ...args) { calls++; return args }] *)
Definition echo : RPCHandler World :=
  {| name := "echo";
     call := fun _ args w => (Normal (Plain (JArr args)), S w) |}.

(** [async function echo(ctx) { calls++; return "v2" }] *)
Definition echo2 : RPCHandler World :=
  {| name := "echo";
     call := fun _ _ w => (Normal (Fulfilled (JStr "v2")), S w) |}.

(** [function brew() { calls++; throw new RPCError(418, "teapot", {pot: "blue"}) }] *)
Definition brew : RPCHandler World :=
  {| name := "brew";
     call := fun _ _ w =>
       (Throw (ThrownRPCError {| error_label := "teapot";
                                 error_params := [("pot", "blue")];
                                 status_code := 418%float |}), S w) |}.

(** [async function crash() { calls++; throw new Error("db password is hunter2") }] *)
Definition crash : RPCHandler World :=
  {| name := "crash";
     call := fun _ _ w =>
       (Normal (Rejected (ThrownError "db password is hunter2")), S w) |}.

(** [() => ({ success: false })] *)
Definition deny : Validator World :=
  fun _ w =>
    (Normal {| ValidatorReturn.success := JBool false;
               ValidatorReturn.metadata := None |}, w).

(** [() => ({})]: no [success] property at all. *)
Definition shrug : Validator World :=
  fun _ w =>
    (Normal {| ValidatorReturn.success := JUndefined;
               ValidatorReturn.metadata := None |}, w).

(** [() => ({ success: true, metadata: Object.freeze({ auth: {} }) })] *)
Definition frozen : Validator World :=
  fun _ w =>
    (Normal {| ValidatorReturn.success := JBool true;
               ValidatorReturn.metadata :=
                 Some {| properties := {| auth := []; req := None; res := None |};
                         refuses := Some (ThrownError
                           "Cannot add property req, object is not extensible") |} |},
     w).

(** [(params) => "no tea from a " + params.pot + " pot"], for pot [blue]. *)
Definition teapot_message : RPCErrorHandler World :=
  fun _ w => (Normal "no tea from a blue pot", w).

Definition registrations : list (RPCHandler World * option string) :=
  [(echo, None); (brew, None); (crash, Some "boom"); (echo2, Some "")].

(** The registry after [add(echo); add(brew); add(crash, "boom")]. *)
Definition rpc : RPC World :=
  {| error_handlers_registry := Map.empty;
     functions := [("echo", echo); ("brew", brew); ("boom", crash)];
     validator := default_validator World |}.

Definition call_of (m : string) (p : JsVal) : RPCRequest :=
  {| method := JStr m; params := p; version := JNum 1%float |}.

End Sample.

(** ** A sample host behind HTTP *)

Module HttpSample.

(** The host's world is the list of replies sent so far. *)
Definition World : Type := list (number * ReplyBody).

(** An Express response that sends whatever it is given. *)
Definition status_json : Response -> number -> ReplyBody -> Effect World unit :=
  fun _ status reply w => (Normal tt, (w ++ [(status, reply)])%list).

(** [function echo(ctx, ...args) { return args }] *)
Definition echo : RPCHandler World :=
  {| name := "echo";
     call := fun _ args w => (Normal (Plain (JArr args)), w) |}.

(** [function brew() { throw new RPCError(418, "teapot") }] *)
Definition brew : RPCHandler World :=
  {| name := "brew";
     call := fun _ _ w =>
       (Throw (ThrownRPCError {| error_label := "teapot";
                                 error_params := [];
                                 status_code := 418%float |}), w) |}.

(** [() => { throw new Error("jwt secret not configured") }] *)
Definition broken_validator : Validator World :=
  fun _ w => (Throw (ThrownError "jwt secret not configured"), w).

(** [() => "first"] and [() => "second"] *)
Definition first_message : RPCErrorHandler World :=
  fun _ w => (Normal "first", w).
Definition second_message : RPCErrorHandler World :=
  fun _ w => (Normal "second", w).

(** [() => { throw new Error("no template") }] *)
Definition broken_message : RPCErrorHandler World :=
  fun _ w => (Throw (ThrownError "no template"), w).

Definition rpc : RPC World :=
  {| error_handlers_registry := Map.empty;
     functions := [("echo", echo); ("brew", brew)];
     validator := default_validator World |}.

Definition start : Store World := {| world := []; trace := [] |}.

Definition response : Response := {| response_id := 7 |}.

(** A request whose parsed body is [requestData]. *)
Definition post (requestData : JsVal) : Request :=
  {| headers_cookie := None; cookies := []; body := requestData |}.

(** [{method: "echo", params: ["hi"], version: 1}] *)
Definition echo_hi : JsVal :=
  JObj [("method", JStr "echo"); ("params", JArr [JStr "hi"]);
        ("version", JNum 1%float)].

(** A fresh Express application. *)
Definition fresh_app : App := {| settings := Map.empty; stack := [] |}.

End HttpSample.

(** ** A sample host of the first version *)

Module V0Sample.

Definition World : Type := list (list string).

(** Stand-ins for the two built-ins: [trim] drops leading spaces, and
    [decodeURIComponent] accepts what has no escape in it. *)
Fixpoint trim (s : string) : string :=
  match s with
  | String " " rest => trim rest
  | _ => s
  end.

Definition decodeURIComponent (s : string) : Completion string :=
  if has_char "%" s then Throw (ThrownError "URIError: URI malformed")
  else Normal s.

Definition String_of (e : Thrown) : string := "[object Object]".

(** An Express response that records the lists of names it sends. *)
Definition json : Response -> V0.ReplyBody -> Effect World unit :=
  fun _ reply w =>
    match reply with
    | V0.NamesBody names => (Normal tt, (w ++ [names])%list)
    | V0.ErrorBody _ => (Normal tt, w)
    end.

Definition status_json : Response -> number -> V0.ReplyBody -> Effect World unit :=
  fun _ _ _ w => (Normal tt, w).

(** [function login() { throw new Error("no such user: root") }] *)
Definition login : V0.RPCHandler World :=
  {| V0.name := "login";
     V0.call := fun _ _ w => (Throw (ThrownError "no such user: root"), w) |}.

(** [async function fetch() { throw new Error("timeout") }] *)
Definition fetch : V0.RPCHandler World :=
  {| V0.name := "fetch";
     V0.call := fun _ _ w => (Normal (Rejected (ThrownError "timeout")), w) |}.

Definition rpc : V0.RPC World :=
  {| V0.functions := [("login", login); ("fetch", fetch)];
     V0.validator := V0.validator (V0.new_RPC World) |}.

Definition start : Store World := {| world := []; trace := [] |}.

Definition with_cookies (header : string) : Request :=
  {| headers_cookie := Some header; cookies := []; body := JNull |}.

End V0Sample.

(** ** A sample host of the second version *)

Module V1Sample.

(** The host's world is the list of replies sent, each with the status
    it was given, if any. *)
Definition World : Type := list (option number * V1.ReplyBody).

Definition String_of (e : Thrown) : string :=
  match e with
  | ThrownError message => "Error: " ++ message
  | _ => "[object Object]"
  end.

Definition json : Response -> V1.ReplyBody -> Effect World unit :=
  fun _ reply w => (Normal tt, (w ++ [(None, reply)])%list).

Definition status_json : Response -> number -> V1.ReplyBody -> Effect World unit :=
  fun _ status reply w => (Normal tt, (w ++ [(Some status, reply)])%list).

(** [async function fetch() { throw new Error("timeout") }] *)
Definition fetch : RPCHandler World :=
  {| name := "fetch";
     call := fun _ _ w => (Normal (Rejected (ThrownError "timeout")), w) |}.

Definition rpc : V1.RPC World :=
  {| V1.functions := [("fetch", fetch)];
     V1.validator := default_validator World |}.

(** The same registry behind a validator that throws. *)
Definition broken : V1.RPC World :=
  {| V1.functions := [("fetch", fetch)];
     V1.validator := fun _ w => (Throw (ThrownError "jwt secret not configured"), w) |}.

(** The same registry behind
    [() => ({ success: true, metadata: Object.freeze({ auth: {} }) })]. *)
Definition frozen : V1.RPC World :=
  {| V1.functions := [("fetch", fetch)];
     V1.validator := fun _ w =>
       (Normal {| ValidatorReturn.success := JBool true;
                  ValidatorReturn.metadata :=
                    Some {| properties := {| auth := []; req := None;
                                            res := None |};
                            refuses := Some (ThrownError
                              "Cannot add property req, object is not extensible") |} |},
        w) |}.

Definition start : Store World := {| world := []; trace := [] |}.

(** [{method: "fetch", version: 1}] *)
Definition fetch_call : JsVal :=
  JObj [("method", JStr "fetch"); ("version", JNum 1%float)].

End V1Sample.

(** ** Properties of the building blocks *)

Lemma includes_prefix (needle rest : string) :
  String.prefix needle (needle ++ rest) = true.
Proof.
  induction needle as [|c needle IH]; simpl.
  - destruct rest; reflexivity.
  - rewrite IH. destruct (ascii_dec c c); [reflexivity | congruence].
Qed.

Lemma includes_of_prefix (needle hay : string) :
  String.prefix needle hay = true -> includes needle hay = true.
Proof.
  intros H. destruct hay; simpl; simpl in H; rewrite H; reflexivity.
Qed.

Lemma includes_infix (pre needle post : string) :
  includes needle (pre ++ needle ++ post) = true.
Proof.
  induction pre as [|c pre IH].
  - change (includes needle (needle ++ post) = true).
    apply includes_of_prefix, includes_prefix.
  - change (includes needle (String c (pre ++ needle ++ post)) = true).
    simpl. rewrite IH. apply orb_true_r.
Qed.

Lemma truthy_JStr (k : string) : k <> "" -> truthy (JStr k) = true.
Proof.
  intros Hk. simpl. destruct (String.eqb_spec k ""); [contradiction | reflexivity].
Qed.

Lemma code_400_is_not_404 : 400%float <> 404%float.
Proof.
  intros H.
  assert (E : PrimFloat.eqb 400 404 = true) by (rewrite H; reflexivity).
  discriminate E.
Qed.

Module MapFacts.

Section WithValues.
Variable V : Type.
Implicit Types (m : Map.t V) (k : string) (v : V).

Lemma get_In_keys m k v : Map.get m k = Some v -> In k (Map.keys m).
Proof.
  induction m as [|[k' v'] m IH]; simpl; [discriminate|].
  destruct (String.eqb_spec k' k); intros H; [left; assumption | right; auto].
Qed.

Lemma In_keys_get m k : In k (Map.keys m) -> exists v, Map.get m k = Some v.
Proof.
  induction m as [|[k' v'] m IH]; simpl; [contradiction|].
  intros H. destruct (String.eqb_spec k' k) as [E|N]; [eauto|].
  destruct H as [H|H]; [contradiction | auto].
Qed.

Lemma get_set_same m k v : Map.get (Map.set m k v) k = Some v.
Proof.
  induction m as [|[k' v'] m IH]; simpl.
  - rewrite String.eqb_refl. reflexivity.
  - destruct (String.eqb_spec k' k) as [E|N]; simpl.
    + rewrite String.eqb_refl. reflexivity.
    + destruct (String.eqb_spec k' k); [contradiction | exact IH].
Qed.

Lemma get_set_other m k k' v :
  k' <> k -> Map.get (Map.set m k v) k' = Map.get m k'.
Proof.
  intros N. induction m as [|[k0 v0] m IH]; simpl.
  - destruct (String.eqb_spec k k'); [congruence | reflexivity].
  - destruct (String.eqb_spec k0 k) as [E|N0]; simpl.
    + subst k0. destruct (String.eqb_spec k k'); [congruence | reflexivity].
    + destruct (String.eqb_spec k0 k'); [reflexivity | exact IH].
Qed.

(** A key that is already there keeps its place. *)
Lemma keys_set_present m k v :
  In k (Map.keys m) -> Map.keys (Map.set m k v) = Map.keys m.
Proof.
  induction m as [|[k' v'] m IH]; simpl; [contradiction|].
  intros H. destruct (String.eqb_spec k' k) as [E|N]; simpl.
  - congruence.
  - f_equal. apply IH. destruct H; [contradiction | assumption].
Qed.

(** A new key goes last. *)
Lemma keys_set_fresh m k v :
  ~ In k (Map.keys m) -> Map.keys (Map.set m k v) = (Map.keys m ++ [k])%list.
Proof.
  induction m as [|[k' v'] m IH]; simpl; [reflexivity|].
  intros H. destruct (String.eqb_spec k' k) as [E|N]; simpl.
  - exfalso. apply H. left. assumption.
  - f_equal. apply IH. intros Hin. apply H. right. assumption.
Qed.

Lemma NoDup_keys_set m k v :
  NoDup (Map.keys m) -> NoDup (Map.keys (Map.set m k v)).
Proof.
  intros ND. destruct (in_dec string_dec k (Map.keys m)) as [Hin|Hout].
  - rewrite keys_set_present by assumption. assumption.
  - rewrite keys_set_fresh by assumption.
    apply NoDup_app; [assumption | repeat constructor; intros [] |].
    intros x Hx [E|[]]. subst x. contradiction.
Qed.

Lemma In_keys_set m k v k' :
  In k' (Map.keys (Map.set m k v)) <-> k' = k \/ In k' (Map.keys m).
Proof.
  destruct (in_dec string_dec k (Map.keys m)) as [Hin|Hout].
  - rewrite keys_set_present by assumption. split; [auto|].
    intros [E|H]; [subst; assumption | assumption].
  - rewrite keys_set_fresh by assumption. rewrite in_app_iff. simpl.
    split; intros H; intuition auto.
Qed.

End WithValues.

End MapFacts.

(** ** Properties of the registry *)

Section Registry.

Variable World : Type.
Implicit Types (this : RPC World) (fh : RPCHandler World).

Lemma add_unfold this fh n :
  add this fh n =
  if registered_name (fh, n) =? "" then
    Throw (ThrownError "Function must have a name")
  else
    Normal {| error_handlers_registry := error_handlers_registry this;
              functions := Map.set (functions this) (registered_name (fh, n)) fh;
              validator := validator this |}.
Proof.
  unfold add, registered_name; simpl.
  destruct n as [n|]; [|reflexivity].
  destruct (n =? ""); reflexivity.
Qed.

Lemma add_inv this fh n this' :
  add this fh n = Normal this' ->
  registered_name (fh, n) <> "" /\
  functions this' = Map.set (functions this) (registered_name (fh, n)) fh /\
  error_handlers_registry this' = error_handlers_registry this /\
  validator this' = validator this.
Proof.
  rewrite add_unfold.
  destruct (String.eqb_spec (registered_name (fh, n)) "") as [E|N]; [discriminate|].
  intros H. injection H as <-. simpl. auto.
Qed.

Lemma registry_ok_new : registry_ok (new_RPC World).
Proof.
  split; [constructor | intros []].
Qed.

Lemma registry_ok_add this fh n this' :
  registry_ok this -> add this fh n = Normal this' -> registry_ok this'.
Proof.
  intros [ND NE] H. apply add_inv in H as (Hn & Hf & _ & _).
  unfold registry_ok, dump. rewrite Hf. split.
  - apply MapFacts.NoDup_keys_set. exact ND.
  - rewrite MapFacts.In_keys_set. intros [E|H]; [congruence | exact (NE H)].
Qed.

Lemma registry_ok_register_all regs : forall this this',
  registry_ok this -> register_all this regs = Normal this' -> registry_ok this'.
Proof.
  induction regs as [|[fh n] regs IH]; simpl; intros this this' Hok H.
  - injection H as <-. exact Hok.
  - destruct (add this fh n) as [this1|e] eqn:E; [|discriminate].
    eapply IH; [eapply registry_ok_add; eassumption | exact H].
Qed.

Lemma registered_is_named this k fh :
  registry_ok this -> Map.get (functions this) k = Some fh -> k <> "".
Proof.
  intros [_ NE] H E. subst k. apply NE.
  eapply MapFacts.get_In_keys. exact H.
Qed.

End Registry.

(** ** Properties of the dispatcher *)

Lemma spread_arguments (p : JsVal) :
  truthy p = false \/ isArray p = true ->
  spread (or_else p (JArr [])) = Normal (arguments_of p).
Proof.
  unfold or_else. intros [H|H].
  - rewrite H. destruct p; try reflexivity. discriminate H.
  - destruct p; try discriminate H. reflexivity.
Qed.

Section Dispatch.

Variable World : Type.
Implicit Types (this : RPC World) (fh : RPCHandler World) (s : Store World).

(** Past the shape checks and the lookup, [handler] is [dispatch_to]. *)
Lemma handler_resolved this rq req res k fh :
  passes_shape_validation rq k ->
  Map.get (functions this) k = Some fh ->
  handler this rq req res = dispatch_to this k fh (params rq) req res.
Proof.
  intros (Hm & Hk & Hp) Hget. unfold handler. cbv zeta.
  rewrite Hm, (truthy_JStr k Hk). simpl negb. cbv iota.
  replace (truthy (params rq) && negb (isArray (params rq))) with false.
  - rewrite Hget. reflexivity.
  - destruct Hp as [H|H]; rewrite H; [reflexivity | apply eq_sym, andb_false_r].
Qed.

Lemma assign_request_taken (vr : ValidatorReturn.t) (req : Request) (res : Response) :
  metadata_refusal vr = None ->
  assign_request
    match ValidatorReturn.metadata vr with
    | Some m => m
    | None => {| properties := {| auth := []; req := None; res := None |};
                 refuses := None |}
    end req res = Normal (context_of vr req res).
Proof.
  unfold metadata_refusal, assign_request, context_of.
  destruct (ValidatorReturn.metadata vr) as [m|]; simpl.
  - intros ->. reflexivity.
  - reflexivity.
Qed.

Lemma assign_request_refused (vr : ValidatorReturn.t) (req : Request) (res : Response)
  (e : Thrown) :
  metadata_refusal vr = Some e ->
  assign_request
    match ValidatorReturn.metadata vr with
    | Some m => m
    | None => {| properties := {| auth := []; req := None; res := None |};
                 refuses := None |}
    end req res = Throw e.
Proof.
  unfold metadata_refusal, assign_request.
  destruct (ValidatorReturn.metadata vr) as [m|]; simpl.
  - intros ->. reflexivity.
  - discriminate.
Qed.

Ltac run_dispatch :=
  cbv beta zeta delta [dispatch_to bind try_catch await call_out lift ret
                       console_error emit] in *.

Lemma dispatch_to_refused this k fh p req res s vr w1 e :
  validator this req (world s) = (Normal vr, w1) ->
  strictly_false (ValidatorReturn.success vr) = false ->
  metadata_refusal vr = Some e ->
  dispatch_to this k fh p req res s =
  (Throw e, {| world := w1; trace := trace s ++ [Validated req] |}).
Proof.
  intros Hv Hs Ht. run_dispatch.
  rewrite Hv, Hs, (assign_request_refused vr req res e Ht). reflexivity.
Qed.

Lemma dispatch_to_rejected this k fh p req res s vr w1 :
  validator this req (world s) = (Normal vr, w1) ->
  strictly_false (ValidatorReturn.success vr) = true ->
  dispatch_to this k fh p req res s =
  (Normal {| success := false; data := None;
             error := Some "authorization failed"; code := 403%float |},
   {| world := w1; trace := trace s ++ [Validated req] |}).
Proof.
  intros Hv Hs. run_dispatch. rewrite Hv, Hs. reflexivity.
Qed.

Lemma dispatch_to_returned this k fh p req res s vr w1 c w2 v :
  validator this req (world s) = (Normal vr, w1) ->
  strictly_false (ValidatorReturn.success vr) = false ->
  metadata_refusal vr = None ->
  truthy p = false \/ isArray p = true ->
  call fh (context_of vr req res) (arguments_of p) w1 = (c, w2) ->
  outcome c = Normal v ->
  dispatch_to this k fh p req res s =
  (Normal {| success := true; data := Some v; error := None; code := 200%float |},
   {| world := w2;
      trace := trace s ++ [Validated req;
                           Invoked k (context_of vr req res) (arguments_of p)] |}).
Proof.
  intros Hv Hs Ht Hp Hc Ho. run_dispatch. rewrite Hv, Hs, (assign_request_taken vr req res Ht), (spread_arguments p Hp).
  cbn [world trace]. rewrite Hc.
  destruct c as [r|e]; cbn [outcome] in Ho; [|discriminate].
  rewrite Ho. rewrite <- app_assoc. reflexivity.
Qed.

Lemma dispatch_to_unrendered this k fh p req res s vr w1 c w2 e :
  validator this req (world s) = (Normal vr, w1) ->
  strictly_false (ValidatorReturn.success vr) = false ->
  metadata_refusal vr = None ->
  truthy p = false \/ isArray p = true ->
  call fh (context_of vr req res) (arguments_of p) w1 = (c, w2) ->
  outcome c = Throw e ->
  renderer_of this e = None ->
  dispatch_to this k fh p req res s =
  (Normal {| success := false; data := None;
             error := Some "Error 500: operation failed"; code := 500%float |},
   {| world := w2;
      trace := trace s ++ [Validated req;
                           Invoked k (context_of vr req res) (arguments_of p);
                           ConsoleError (logged_for e)] |}).
Proof.
  intros Hv Hs Ht Hp Hc Ho Hr. run_dispatch. rewrite Hv, Hs, (assign_request_taken vr req res Ht), (spread_arguments p Hp).
  cbn [world trace]. rewrite Hc.
  assert (E : match c with Normal r => settle r | Throw e0 => Throw e0 end = Throw e) by exact Ho.
  destruct c as [r|e0].
  - rewrite E. destruct e as [e| |]; cbn [renderer_of logged_for] in *.
    + rewrite Hr. cbn [world trace]. repeat rewrite <- app_assoc. reflexivity.
    + cbn [world trace]. repeat rewrite <- app_assoc. reflexivity.
    + cbn [world trace]. repeat rewrite <- app_assoc. reflexivity.
  - injection E as ->. destruct e as [e| |]; cbn [renderer_of logged_for] in *.
    + rewrite Hr. cbn [world trace]. repeat rewrite <- app_assoc. reflexivity.
    + cbn [world trace]. repeat rewrite <- app_assoc. reflexivity.
    + cbn [world trace]. repeat rewrite <- app_assoc. reflexivity.
Qed.

Lemma dispatch_to_rendered this k fh p req res s vr w1 c w2 e render cr w3 :
  validator this req (world s) = (Normal vr, w1) ->
  strictly_false (ValidatorReturn.success vr) = false ->
  metadata_refusal vr = None ->
  truthy p = false \/ isArray p = true ->
  call fh (context_of vr req res) (arguments_of p) w1 = (c, w2) ->
  outcome c = Throw (ThrownRPCError e) ->
  Map.get (error_handlers_registry this) (error_label e) = Some render ->
  render (error_params e) w2 = (cr, w3) ->
  dispatch_to this k fh p req res s =
  (match cr with
   | Normal error_msg =>
       Normal {| success := false; data := None;
                 error := Some error_msg; code := status_code e |}
   | Throw x => Throw x
   end,
   {| world := w3;
      trace := trace s ++ [Validated req;
                           Invoked k (context_of vr req res) (arguments_of p);
                           Rendered (error_label e) (error_params e)] |}).
Proof.
  intros Hv Hs Ht Hp Hc Ho Hr Hm. run_dispatch. rewrite Hv, Hs, (assign_request_taken vr req res Ht), (spread_arguments p Hp).
  cbn [world trace]. rewrite Hc.
  assert (E : match c with Normal r => settle r | Throw e0 => Throw e0 end
              = Throw (ThrownRPCError e)) by exact Ho.
  destruct c as [r|e0].
  - rewrite E, Hr. cbn [world trace]. rewrite Hm.
    repeat rewrite <- app_assoc. destruct cr; reflexivity.
  - injection E as ->. rewrite Hr. cbn [world trace]. rewrite Hm.
    repeat rewrite <- app_assoc. destruct cr; reflexivity.
Qed.

(** The three shape checks and [passes_shape_validation] cover every
    request. *)
Lemma shape_cases (rq : RPCRequest) :
  truthy (method rq) = false \/
  (truthy (method rq) = true /\ is_string (method rq) = false) \/
  (truthy (method rq) = true /\ is_string (method rq) = true /\
   truthy (params rq) = true /\ isArray (params rq) = false) \/
  (exists k, passes_shape_validation rq k).
Proof.
  destruct (truthy (method rq)) eqn:Ht; [right | left; reflexivity].
  destruct (method rq) as [| | | |k| |] eqn:Hm;
    try (left; split; reflexivity).
  right. destruct (truthy (params rq)) eqn:Hp.
  - destruct (isArray (params rq)) eqn:Ha.
    + right. exists k.
      split; [exact Hm | split; [|right; exact Ha]].
      intros E. subst k. discriminate Ht.
    + left. repeat split.
  - right. exists k.
    split; [exact Hm | split; [|left; exact Hp]].
    intros E. subst k. discriminate Ht.
Qed.


End Dispatch.

(** ** Insertion order of the registry *)

Section InsertionOrder.

Variable World : Type.

Lemma among_In ks k : among ks k = true <-> In k ks.
Proof.
  unfold among. rewrite existsb_exists. split.
  - intros (x & Hx & E). apply String.eqb_eq in E. subst. assumption.
  - intros H. exists k. split; [assumption | apply String.eqb_refl].
Qed.

Lemma filter_outside_present (seen : list string) (k : string) (ks : list string) :
  In k seen ->
  filter (fun x => negb (among seen x)) (filter (fun x => negb (x =? k)) ks)
  = filter (fun x => negb (among seen x)) ks.
Proof.
  intros Hk. induction ks as [|x ks IH]; simpl; [reflexivity|].
  destruct (String.eqb_spec x k) as [E|N]; simpl.
  - subst x. apply among_In in Hk. rewrite Hk. simpl. exact IH.
  - rewrite IH. reflexivity.
Qed.

Lemma filter_outside_fresh (seen : list string) (k : string) (ks : list string) :
  filter (fun x => negb (among (seen ++ [k]) x)) ks
  = filter (fun x => negb (among seen x)) (filter (fun x => negb (x =? k)) ks).
Proof.
  induction ks as [|x ks IH]; simpl; [reflexivity|].
  unfold among at 1. rewrite existsb_app. simpl. rewrite orb_false_r.
  fold (among seen x). rewrite (String.eqb_sym x k).
  destruct (String.eqb_spec k x) as [E|N]; simpl.
  - rewrite orb_true_r. simpl. exact IH.
  - rewrite orb_false_r. destruct (among seen x); simpl; rewrite IH; reflexivity.
Qed.

Lemma filter_outside_nil (ks : list string) :
  filter (fun x => negb (among [] x)) ks = ks.
Proof.
  induction ks as [|x ks IH]; simpl; [reflexivity | f_equal; exact IH].
Qed.

(** Registrations extend the listing by the new names, each at its first
    occurrence. *)
Lemma dump_register_all (regs : list (RPCHandler World * option string)) :
  forall this this',
    register_all this regs = Normal this' ->
    dump this' =
    (dump this ++ filter (fun x => negb (among (dump this) x))
                         (first_occurrences (map registered_name regs)))%list.
Proof.
  induction regs as [|[fh n] regs IH]; simpl; intros this this' H.
  - injection H as <-. rewrite app_nil_r. reflexivity.
  - destruct (add this fh n) as [this1|e] eqn:E; [|discriminate].
    apply IH in H. rewrite H. clear H IH.
    apply add_inv in E as (_ & Hf & _ & _).
    unfold dump in *. rewrite Hf.
    destruct (in_dec string_dec (registered_name (fh, n)) (Map.keys (functions this)))
      as [Hin|Hout].
    + rewrite MapFacts.keys_set_present by assumption.
      assert (A : among (Map.keys (functions this)) (registered_name (fh, n)) = true)
        by (apply among_In; assumption).
      rewrite A. simpl. rewrite filter_outside_present by assumption. reflexivity.
    + rewrite MapFacts.keys_set_fresh by assumption.
      assert (A : among (Map.keys (functions this)) (registered_name (fh, n)) = false).
      { destruct (among _ _) eqn:A; [|reflexivity].
        apply among_In in A. contradiction. }
      rewrite A. simpl. rewrite <- app_assoc. simpl.
      rewrite filter_outside_fresh. reflexivity.
Qed.

End InsertionOrder.

(** ** The contracts of the dispatcher *)

Lemma strictly_false_spec (v : JsVal) :
  strictly_false v = false <-> v <> JBool false.
Proof.
  split.
  - intros H E. subst v. discriminate H.
  - intros H. destruct v as [| |[|]| | | |]; try reflexivity. congruence.
Qed.

Section Contracts.

Variable World : Type.
Implicit Types (this : RPC World) (fh : RPCHandler World) (s : Store World).

(** C1.  A request whose method names a registered handler, whose [params]
    is absent or a list, and which the validator authorizes, is answered
    with [{success: true, data: v, code: 200}], where [v] is the value the
    handler returned, awaited if it was a promise; no [error] is set.  The dispatch is one that
    gets to the handler: the validator's metadata, if there is one, takes
    the assignments of [req] and [res]. *)
Theorem handler_success_envelope this rq req res s k fh vr w1 c w2 v :
  registry_ok this ->
  method rq = JStr k ->
  Map.get (functions this) k = Some fh ->
  params rq = JUndefined \/ (exists items, params rq = JArr items) ->
  validator this req (world s) = (Normal vr, w1) ->
  ValidatorReturn.success vr <> JBool false ->
  metadata_refusal vr = None ->
  call fh (context_of vr req res) (arguments_of (params rq)) w1 = (c, w2) ->
  outcome c = Normal v ->
  handler this rq req res s =
  (Normal {| success := true; data := Some v; error := None; code := 200%float |},
   {| world := w2;
      trace := trace s ++ [Validated req;
                           Invoked k (context_of vr req res)
                                   (arguments_of (params rq))] |}).
Proof.
  intros Hok Hm Hget Hp Hv Hs Ht Hc Ho.
  assert (Hshape : passes_shape_validation rq k).
  { split; [exact Hm|]. split; [eapply registered_is_named; eassumption|].
    destruct Hp as [E|[items E]]; rewrite E; [left | right]; reflexivity. }
  rewrite (handler_resolved World this rq req res k fh Hshape Hget).
  destruct Hshape as (_ & _ & Hp').
  eapply dispatch_to_returned; try eassumption.
  apply strictly_false_spec. exact Hs.
Qed.


(** C3.  A request that passes shape validation but names no registered
    handler is answered with [success: false], status 400 (which is not
    404) and an error text that contains the requested name. *)
Theorem unknown_method_is_400 this rq req res s k :
  passes_shape_validation rq k ->
  Map.get (functions this) k = None ->
  exists text,
    handler this rq req res s =
    (Normal {| success := false; data := None; error := Some text;
               code := 400%float |}, s)
    /\ text = "RPC function '" ++ k ++ "' not found"
    /\ includes k text = true
    /\ 400%float <> 404%float.
Proof.
  intros (Hm & Hk & Hp) Hget. eexists. split; [|split; [reflexivity|split]].
  - unfold handler. cbv zeta. rewrite Hm, (truthy_JStr k Hk). simpl negb. cbv iota.
    replace (truthy (params rq) && negb (isArray (params rq))) with false.
    + rewrite Hget. reflexivity.
    + destruct Hp as [H|H]; rewrite H; [reflexivity | apply eq_sym, andb_false_r].
  - apply includes_infix.
  - exact code_400_is_not_404.
Qed.

(** C4.  When a request reaches the authorization step and the validator
    rejects it, the answer is [{success: false, error: "authorization
    failed", code: 403}] and the resolved handler is not invoked: the only
    event is the validator's call, and the world is as the validator left
    it. *)
Theorem rejected_call_is_403 this rq req res s k fh vr w1 :
  passes_shape_validation rq k ->
  Map.get (functions this) k = Some fh ->
  validator this req (world s) = (Normal vr, w1) ->
  ValidatorReturn.success vr = JBool false ->
  handler this rq req res s =
  (Normal {| success := false; data := None;
             error := Some "authorization failed"; code := 403%float |},
   {| world := w1; trace := trace s ++ [Validated req] |}).
Proof.
  intros Hshape Hget Hv Hs.
  rewrite (handler_resolved World this rq req res k fh Hshape Hget).
  eapply dispatch_to_rejected; [eassumption|]. rewrite Hs. reflexivity.
Qed.

(** C5.  When the handler fails with an [RPCError] whose label has a
    renderer in the error-handler registry, the answer is [success: false]
    with the error message exactly what the renderer makes of the error's
    parameters, and the status code the error's own.  The dispatch is one that
    gets to the handler: the validator's metadata, if there is one, takes
    the assignments of [req] and [res]. *)
Theorem labeled_error_is_rendered
  this rq req res s k fh vr w1 c w2 e render msg w3 :
  passes_shape_validation rq k ->
  Map.get (functions this) k = Some fh ->
  validator this req (world s) = (Normal vr, w1) ->
  ValidatorReturn.success vr <> JBool false ->
  metadata_refusal vr = None ->
  call fh (context_of vr req res) (arguments_of (params rq)) w1 = (c, w2) ->
  outcome c = Throw (ThrownRPCError e) ->
  Map.get (error_handlers_registry this) (error_label e) = Some render ->
  render (error_params e) w2 = (Normal msg, w3) ->
  handler this rq req res s =
  (Normal {| success := false; data := None; error := Some msg;
             code := status_code e |},
   {| world := w3;
      trace := trace s ++ [Validated req;
                           Invoked k (context_of vr req res)
                                   (arguments_of (params rq));
                           Rendered (error_label e) (error_params e)] |}).
Proof.
  intros Hshape Hget Hv Hs Ht Hc Ho Hr Hm.
  rewrite (handler_resolved World this rq req res k fh Hshape Hget).
  destruct Hshape as (_ & _ & Hp).
  apply strictly_false_spec in Hs.
  rewrite (dispatch_to_rendered World this k fh (params rq) req res s vr w1 c w2 e
             render (Normal msg) w3 Hv Hs Ht Hp Hc Ho Hr Hm).
  reflexivity.
Qed.

(** C6.  When the handler fails with an [RPCError] whose label has no
    renderer, or with anything that is not an [RPCError], the answer is
    the fixed envelope [{success: false, error: "Error 500: operation
    failed", code: 500}]: it is the same whatever the label, the
    parameters or the exception's message are.  The label, or the
    exception itself, goes to the server's log.  The dispatch is one that
    gets to the handler: the validator's metadata, if there is one, takes
    the assignments of [req] and [res]. *)
Theorem unrendered_failure_is_generic_500
  this rq req res s k fh vr w1 c w2 e :
  passes_shape_validation rq k ->
  Map.get (functions this) k = Some fh ->
  validator this req (world s) = (Normal vr, w1) ->
  ValidatorReturn.success vr <> JBool false ->
  metadata_refusal vr = None ->
  call fh (context_of vr req res) (arguments_of (params rq)) w1 = (c, w2) ->
  outcome c = Throw e ->
  renderer_of this e = None ->
  handler this rq req res s =
  (Normal {| success := false; data := None;
             error := Some "Error 500: operation failed"; code := 500%float |},
   {| world := w2;
      trace := trace s ++ [Validated req;
                           Invoked k (context_of vr req res)
                                   (arguments_of (params rq));
                           ConsoleError (logged_for e)] |}).
Proof.
  intros Hshape Hget Hv Hs Ht Hc Ho Hr.
  rewrite (handler_resolved World this rq req res k fh Hshape Hget).
  destruct Hshape as (_ & _ & Hp).
  apply strictly_false_spec in Hs.
  eapply dispatch_to_unrendered; eassumption.
Qed.

(** Case analysis on a scrutinee that holds no other case analysis. *)
Ltac destruct_innermost x :=
  lazymatch x with
  | context [match ?y with _ => _ end] => destruct_innermost y
  | _ => destruct x
  end.

(** C7.  Every response the dispatcher produces, for every request,
    validator, handler and renderer, has exactly one of [data] and [error]:
    [data] is there if and only if [success] is true, [error] if and only
    if [success] is false. *)
Theorem response_has_data_xor_error this rq req res s resp s' :
  handler this rq req res s = (Normal resp, s') ->
  (data resp <> None <-> success resp = true) /\
  (error resp <> None <-> success resp = false).
Proof.
  intros H.
  assert (G : match handler this rq req res s with
              | (Normal r, _) =>
                  (data r <> None <-> success r = true) /\
                  (error r <> None <-> success r = false)
              | (Throw _, _) => True
              end).
  { clear H. unfold handler. cbv zeta.
    cbv beta delta [bind try_catch await call_out lift ret console_error emit].
    repeat match goal with
           | |- context [match ?x with _ => _ end] => destruct_innermost x
           end;
    try exact I; simpl; split; split;
    solve [congruence | discriminate | reflexivity | intros _; discriminate]. }
  rewrite H in G. exact G.
Qed.

(** C8.  Registering two handlers under the same name leaves that name
    once in the registry, bound to the second handler, and a later
    dispatch of that name runs the second handler. *)
Theorem add_twice_last_wins this h1 n1 this1 h2 n2 this2 :
  registry_ok this ->
  add this h1 n1 = Normal this1 ->
  add this1 h2 n2 = Normal this2 ->
  registered_name (h1, n1) = registered_name (h2, n2) ->
  count_occ string_dec (dump this2) (registered_name (h2, n2)) = 1 /\
  Map.get (functions this2) (registered_name (h2, n2)) = Some h2 /\
  (forall rq req res,
     passes_shape_validation rq (registered_name (h2, n2)) ->
     handler this2 rq req res =
     dispatch_to this2 (registered_name (h2, n2)) h2 (params rq) req res).
Proof.
  intros Hok H1 H2 Hname.
  assert (Hok2 : registry_ok this2).
  { eapply registry_ok_add; [eapply registry_ok_add|]; eassumption. }
  apply add_inv in H2 as (_ & Hf2 & _ & _).
  assert (Hget : Map.get (functions this2) (registered_name (h2, n2)) = Some h2).
  { rewrite Hf2. apply MapFacts.get_set_same. }
  split; [|split].
  - apply NoDup_count_occ'; [exact (proj1 Hok2)|].
    eapply MapFacts.get_In_keys. exact Hget.
  - exact Hget.
  - intros rq req res Hshape. apply handler_resolved; assumption.
Qed.

(** C9.  After any sequence of registrations on a fresh [RPC], [dump]
    returns exactly the registered names, none twice, in insertion order
    (each name at the place of its first registration); the listing is a
    function of the registry alone, so it stays the same as long as
    nothing is registered, whatever else is done to the object. *)
Theorem dump_lists_names_in_insertion_order
  (regs : list (RPCHandler World * option string)) this :
  register_all (new_RPC World) regs = Normal this ->
  (forall k, In k (dump this) <-> exists fh, Map.get (functions this) k = Some fh) /\
  NoDup (dump this) /\
  dump this = first_occurrences (map registered_name regs) /\
  (forall fh k, In k (dump this) ->
     forall this', add this fh (Some k) = Normal this' -> dump this' = dump this) /\
  (forall label error_handler,
     dump (handleError this label error_handler) = dump this) /\
  (forall v, dump (set_validator this v) = dump this).
Proof.
  intros H. repeat split.
  - apply MapFacts.In_keys_get.
  - intros [fh Hget]. eapply MapFacts.get_In_keys. exact Hget.
  - exact (proj1 (registry_ok_register_all World regs _ _ (registry_ok_new World) H)).
  - rewrite (dump_register_all World regs _ _ H). simpl.
    apply filter_outside_nil.
  - intros fh k Hin this' Hadd. apply add_inv in Hadd as (Hn & Hf & _ & _).
    unfold dump. rewrite Hf. apply MapFacts.keys_set_present.
    unfold registered_name in *. simpl in *.
    destruct (String.eqb_spec k "") as [E|N]; [|exact Hin].
    exfalso. subst k.
    exact (proj2 (registry_ok_register_all World regs _ _ (registry_ok_new World) H) Hin).
Qed.

(** C10, as the code has it.  The dispatcher rejects a call as
    unauthorized only when the validator's [success] is strictly the
    boolean [false].  With any other value ([undefined], [null], [0], the
    empty string, ...) the call goes on: when the validator's metadata, if
    there is one, takes the assignments of [req] and [res], the handler is
    invoked, and what it returns is the answer; when there is no metadata
    the assignments are always taken and the handler's context has an
    empty [auth] mapping. *)
Theorem only_strict_false_rejects this rq req res s k fh vr w1 :
  passes_shape_validation rq k ->
  Map.get (functions this) k = Some fh ->
  validator this req (world s) = (Normal vr, w1) ->
  ValidatorReturn.success vr <> JBool false ->
  (metadata_refusal vr = None ->
   exists r s' later,
     handler this rq req res s = (r, s') /\
     trace s' = (trace s ++ [Validated req;
                             Invoked k (context_of vr req res)
                                     (arguments_of (params rq))] ++ later)%list /\
     (forall v,
        outcome (fst (call fh (context_of vr req res)
                           (arguments_of (params rq)) w1)) = Normal v ->
        r = Normal {| success := true; data := Some v; error := None;
                      code := 200%float |} /\
        world s' = snd (call fh (context_of vr req res)
                             (arguments_of (params rq)) w1))) /\
  (ValidatorReturn.metadata vr = None ->
   metadata_refusal vr = None /\
   context_of vr req res = {| auth := []; req := Some req; res := Some res |}) /\
  strictly_false JUndefined = false /\
  strictly_false JNull = false /\
  strictly_false (JNum 0%float) = false /\
  strictly_false (JStr "") = false.
Proof.
  intros Hshape Hget Hv Hs.
  split; [|split; [|repeat split]].
  - intros Ht.
    rewrite (handler_resolved World this rq req res k fh Hshape Hget).
    destruct Hshape as (_ & _ & Hp).
    apply strictly_false_spec in Hs.
    destruct (call fh (context_of vr req res) (arguments_of (params rq)) w1)
      as [c w2] eqn:Hc.
    destruct (outcome c) as [v|e] eqn:Ho.
    + do 2 eexists. exists [].
      rewrite (dispatch_to_returned World this k fh (params rq) req res s vr w1 c w2 v
                 Hv Hs Ht Hp Hc Ho).
      split; [reflexivity|]. split; [reflexivity|].
      simpl. rewrite Ho. intros v' E. injection E as <-. split; reflexivity.
    + destruct (renderer_of this e) as [render|] eqn:Hr.
      * destruct e as [e| |]; simpl in Hr; try discriminate Hr.
        destruct (render (error_params e) w2) as [cr w3] eqn:Hm.
        do 2 eexists. exists [Rendered (error_label e) (error_params e)].
        rewrite (dispatch_to_rendered World this k fh (params rq) req res s vr w1 c w2
                   e render cr w3 Hv Hs Ht Hp Hc Ho Hr Hm).
        split; [reflexivity|]. split; [reflexivity|].
        simpl. rewrite Ho. intros v' E. discriminate E.
      * do 2 eexists. exists [ConsoleError (logged_for e)].
        rewrite (dispatch_to_unrendered World this k fh (params rq) req res s vr w1 c
                   w2 e Hv Hs Ht Hp Hc Ho Hr).
        split; [reflexivity|]. split; [reflexivity|].
        simpl. rewrite Ho. intros v' E. discriminate E.
  - intros Hmeta. unfold metadata_refusal, context_of. rewrite Hmeta.
    split; reflexivity.
Qed.

End Contracts.

(** ** The contracts on the sample host *)

(** The sample registry is what three registrations build. *)
Lemma sample_registry_ok : registry_ok Sample.rpc.
Proof.
  apply (registry_ok_register_all Sample.World
           [(Sample.echo, None); (Sample.brew, None); (Sample.crash, Some "boom")]
           (new_RPC Sample.World)).
  - apply registry_ok_new.
  - reflexivity.
Qed.

(** C1 on the sample host: [echo("hi")] under the default validator. *)
Lemma handler_success_envelope_witness :
  handler Sample.rpc (Sample.call_of "echo" (JArr [JStr "hi"]))
          Sample.request Sample.response Sample.start =
  (Normal {| success := true; data := Some (JArr [JStr "hi"]); error := None;
             code := 200%float |},
   {| world := 1;
      trace := [Validated Sample.request;
                Invoked "echo"
                  {| auth := []; req := Some Sample.request;
                     res := Some Sample.response |}
                  [JStr "hi"]] |}).
Proof.
  apply (handler_success_envelope Sample.World Sample.rpc
           (Sample.call_of "echo" (JArr [JStr "hi"]))
           Sample.request Sample.response Sample.start "echo" Sample.echo
           {| ValidatorReturn.success := JBool true;
              ValidatorReturn.metadata := None |}
           0 (Normal (Plain (JArr [JStr "hi"]))) 1 (JArr [JStr "hi"])).
  - exact sample_registry_ok.
  - reflexivity.
  - reflexivity.
  - right. exists [JStr "hi"]. reflexivity.
  - reflexivity.
  - discriminate.
  - reflexivity.
  - reflexivity.
  - reflexivity.
Defined.



(** C3 on the sample host: nothing is registered as [nope]. *)
Lemma unknown_method_is_400_witness :
  exists text,
    handler Sample.rpc (Sample.call_of "nope" JUndefined)
            Sample.request Sample.response Sample.start =
    (Normal {| success := false; data := None; error := Some text;
               code := 400%float |}, Sample.start)
    /\ text = "RPC function 'nope' not found"
    /\ includes "nope" text = true
    /\ 400%float <> 404%float.
Proof.
  apply (unknown_method_is_400 Sample.World Sample.rpc
           (Sample.call_of "nope" JUndefined)
           Sample.request Sample.response Sample.start "nope").
  - split; [reflexivity|]. split; [discriminate | left; reflexivity].
  - reflexivity.
Defined.

(** C4 on the sample host: under [deny] the call counter stays at 0. *)
Lemma rejected_call_is_403_witness :
  handler (set_validator Sample.rpc Sample.deny) (Sample.call_of "echo" (JArr []))
          Sample.request Sample.response Sample.start =
  (Normal {| success := false; data := None;
             error := Some "authorization failed"; code := 403%float |},
   {| world := 0; trace := [Validated Sample.request] |}).
Proof.
  apply (rejected_call_is_403 Sample.World (set_validator Sample.rpc Sample.deny)
           (Sample.call_of "echo" (JArr []))
           Sample.request Sample.response Sample.start "echo" Sample.echo
           {| ValidatorReturn.success := JBool false;
              ValidatorReturn.metadata := None |} 0).
  - split; [reflexivity|]. split; [discriminate | right; reflexivity].
  - reflexivity.
  - reflexivity.
  - reflexivity.
Defined.

(** C5 on the sample host: [brew] with a renderer for [teapot]. *)
Lemma labeled_error_is_rendered_witness :
  handler (handleError Sample.rpc "teapot" Sample.teapot_message)
          (Sample.call_of "brew" JUndefined)
          Sample.request Sample.response Sample.start =
  (Normal {| success := false; data := None;
             error := Some "no tea from a blue pot"; code := 418%float |},
   {| world := 1;
      trace := [Validated Sample.request;
                Invoked "brew"
                  {| auth := []; req := Some Sample.request;
                     res := Some Sample.response |}
                  [];
                Rendered "teapot" [("pot", "blue")]] |}).
Proof.
  apply (labeled_error_is_rendered Sample.World
           (handleError Sample.rpc "teapot" Sample.teapot_message)
           (Sample.call_of "brew" JUndefined)
           Sample.request Sample.response Sample.start "brew" Sample.brew
           {| ValidatorReturn.success := JBool true;
              ValidatorReturn.metadata := None |}
           0
           (Throw (ThrownRPCError {| error_label := "teapot";
                                     error_params := [("pot", "blue")];
                                     status_code := 418%float |}))
           1
           {| error_label := "teapot"; error_params := [("pot", "blue")];
              status_code := 418%float |}
           Sample.teapot_message "no tea from a blue pot" 1).
  - split; [reflexivity|]. split; [discriminate | left; reflexivity].
  - reflexivity.
  - reflexivity.
  - discriminate.
  - reflexivity.
  - reflexivity.
  - reflexivity.
  - reflexivity.
  - reflexivity.
Defined.

(** C6 on the sample host: the message of the rejected promise reaches
    the log and not the response. *)
Lemma unrendered_failure_is_generic_500_witness :
  handler Sample.rpc (Sample.call_of "boom" (JArr [JNull]))
          Sample.request Sample.response Sample.start =
  (Normal {| success := false; data := None;
             error := Some "Error 500: operation failed"; code := 500%float |},
   {| world := 1;
      trace := [Validated Sample.request;
                Invoked "boom"
                  {| auth := []; req := Some Sample.request;
                     res := Some Sample.response |}
                  [JNull];
                ConsoleError (LogThrown (ThrownError "db password is hunter2"))] |}).
Proof.
  apply (unrendered_failure_is_generic_500 Sample.World Sample.rpc
           (Sample.call_of "boom" (JArr [JNull]))
           Sample.request Sample.response Sample.start "boom" Sample.crash
           {| ValidatorReturn.success := JBool true;
              ValidatorReturn.metadata := None |}
           0 (Normal (Rejected (ThrownError "db password is hunter2"))) 1
           (ThrownError "db password is hunter2")).
  - split; [reflexivity|]. split; [discriminate | right; reflexivity].
  - reflexivity.
  - reflexivity.
  - discriminate.
  - reflexivity.
  - reflexivity.
  - reflexivity.
  - reflexivity.
Defined.

(** The same envelope for a labeled error without a renderer: only the
    label reaches the log. *)
Example unrendered_label_on_sample :
  handler Sample.rpc (Sample.call_of "brew" JNull)
          Sample.request Sample.response Sample.start =
  (Normal {| success := false; data := None;
             error := Some "Error 500: operation failed"; code := 500%float |},
   {| world := 1;
      trace := [Validated Sample.request;
                Invoked "brew"
                  {| auth := []; req := Some Sample.request;
                     res := Some Sample.response |}
                  [];
                ConsoleError
                  (LogText ("unhandled exception for label " ++ dquote
                            ++ "teapot" ++ dquote))] |}).
Proof. reflexivity. Qed.

(** C7 on the response of [echo()] on the sample host. *)
Lemma response_has_data_xor_error_witness :
  (data {| success := true; data := Some (JArr []); error := None;
           code := 200%float |} <> None
   <-> success {| success := true; data := Some (JArr []); error := None;
                  code := 200%float |} = true) /\
  (error {| success := true; data := Some (JArr []); error := None;
            code := 200%float |} <> None
   <-> success {| success := true; data := Some (JArr []); error := None;
                  code := 200%float |} = false).
Proof.
  apply (response_has_data_xor_error Sample.World Sample.rpc
           (Sample.call_of "echo" JUndefined)
           Sample.request Sample.response Sample.start
           {| success := true; data := Some (JArr []); error := None;
              code := 200%float |}
           {| world := 1;
              trace := [Validated Sample.request;
                        Invoked "echo"
                          {| auth := []; req := Some Sample.request;
                             res := Some Sample.response |}
                          []] |}).
  reflexivity.
Defined.

(** C8 on the sample host: [add(echo); add(echo2, "")] leaves one [echo],
    and a call of it is answered by [echo2]. *)
Lemma add_twice_last_wins_witness :
  add (new_RPC Sample.World) Sample.echo None
    = Normal {| error_handlers_registry := [];
                functions := [("echo", Sample.echo)];
                validator := default_validator Sample.World |} /\
  add {| error_handlers_registry := [];
         functions := [("echo", Sample.echo)];
         validator := default_validator Sample.World |} Sample.echo2 (Some "")
    = Normal {| error_handlers_registry := [];
                functions := [("echo", Sample.echo2)];
                validator := default_validator Sample.World |} /\
  count_occ string_dec
    (dump {| error_handlers_registry := [];
             functions := [("echo", Sample.echo2)];
             validator := default_validator Sample.World |}) "echo" = 1 /\
  Map.get [("echo", Sample.echo2)] "echo" = Some Sample.echo2 /\
  handler {| error_handlers_registry := [];
             functions := [("echo", Sample.echo2)];
             validator := default_validator Sample.World |}
          (Sample.call_of "echo" (JArr [JStr "hi"]))
          Sample.request Sample.response Sample.start =
  (Normal {| success := true; data := Some (JStr "v2"); error := None;
             code := 200%float |},
   {| world := 1;
      trace := [Validated Sample.request;
                Invoked "echo"
                  {| auth := []; req := Some Sample.request;
                     res := Some Sample.response |}
                  [JStr "hi"]] |}).
Proof.
  split; [reflexivity|]. split; [reflexivity|].
  destruct (add_twice_last_wins Sample.World (new_RPC Sample.World)
              Sample.echo None
              {| error_handlers_registry := [];
                 functions := [("echo", Sample.echo)];
                 validator := default_validator Sample.World |}
              Sample.echo2 (Some "")
              {| error_handlers_registry := [];
                 functions := [("echo", Sample.echo2)];
                 validator := default_validator Sample.World |}
              (registry_ok_new Sample.World) eq_refl eq_refl eq_refl)
    as (Hcount & Hget & Hrun).
  split; [exact Hcount|]. split; [exact Hget|].
  rewrite (Hrun (Sample.call_of "echo" (JArr [JStr "hi"]))
                Sample.request Sample.response).
  - reflexivity.
  - split; [reflexivity|]. split; [discriminate | right; reflexivity].
Defined.

(** C9 on the registrations of the sample host. *)
Lemma dump_lists_names_in_insertion_order_witness :
  register_all (new_RPC Sample.World) Sample.registrations
    = Normal {| error_handlers_registry := [];
                functions := [("echo", Sample.echo2); ("brew", Sample.brew);
                              ("boom", Sample.crash)];
                validator := default_validator Sample.World |} /\
  dump {| error_handlers_registry := [];
          functions := [("echo", Sample.echo2); ("brew", Sample.brew);
                        ("boom", Sample.crash)];
          validator := default_validator Sample.World |}
    = ["echo"; "brew"; "boom"] /\
  NoDup (dump {| error_handlers_registry := [];
                 functions := [("echo", Sample.echo2); ("brew", Sample.brew);
                               ("boom", Sample.crash)];
                 validator := default_validator Sample.World |}).
Proof.
  split; [reflexivity|]. split; [reflexivity|].
  exact (proj1 (proj2 (dump_lists_names_in_insertion_order Sample.World
                         Sample.registrations
                         {| error_handlers_registry := [];
                            functions := [("echo", Sample.echo2);
                                          ("brew", Sample.brew);
                                          ("boom", Sample.crash)];
                            validator := default_validator Sample.World |}
                         eq_refl))).
Defined.

(** C10 as stated fails: a validator that authorizes with a frozen
    metadata object is not answered 403, and the handler is not invoked
    either (no invocation, the call counter at 0): the assignment of
    [req] throws, outside the [try]. *)
Lemma frozen_metadata_stops_the_call :
  Sample.frozen Sample.request 0 =
  (Normal {| ValidatorReturn.success := JBool true;
             ValidatorReturn.metadata :=
               Some {| properties := {| auth := []; req := None; res := None |};
                       refuses := Some (ThrownError
                         "Cannot add property req, object is not extensible") |} |},
   0) /\
  strictly_false (JBool true) = false /\
  Map.get (functions (set_validator Sample.rpc Sample.frozen)) "echo"
    = Some Sample.echo /\
  handler (set_validator Sample.rpc Sample.frozen)
          (Sample.call_of "echo" (JArr [JStr "hi"]))
          Sample.request Sample.response Sample.start =
  (Throw (ThrownError "Cannot add property req, object is not extensible"),
   {| world := 0; trace := [Validated Sample.request] |}).
Proof.
  repeat split.
Qed.

(** C10 on the sample host: a validator that returns [{}] lets the call
    through, with an empty [auth]. *)
Lemma only_strict_false_rejects_witness :
  exists r s' later,
    handler (set_validator Sample.rpc Sample.shrug)
            (Sample.call_of "echo" (JArr [JStr "hi"]))
            Sample.request Sample.response Sample.start = (r, s') /\
    trace s' = ([] ++ [Validated Sample.request;
                       Invoked "echo"
                         {| auth := []; req := Some Sample.request;
                            res := Some Sample.response |}
                         [JStr "hi"]] ++ later)%list /\
    (forall v,
       Normal (JArr [JStr "hi"]) = Normal v ->
       r = Normal {| success := true; data := Some v; error := None;
                     code := 200%float |} /\
       world s' = 1).
Proof.
  refine (proj1 (only_strict_false_rejects Sample.World
                   (set_validator Sample.rpc Sample.shrug)
                   (Sample.call_of "echo" (JArr [JStr "hi"]))
                   Sample.request Sample.response Sample.start "echo" Sample.echo
                   {| ValidatorReturn.success := JUndefined;
                      ValidatorReturn.metadata := None |} 0 _ _ _ _) _).
  - split; [reflexivity|]. split; [discriminate | right; reflexivity].
  - reflexivity.
  - reflexivity.
  - discriminate.
  - reflexivity.
Defined.

(** ** Further properties of the dispatcher *)

Section DispatchMore.

Variable World : Type.
Implicit Types (this : RPC World) (fh : RPCHandler World) (s : Store World).

Lemma dispatch_to_validator_threw this k fh p req res s e w1 :
  validator this req (world s) = (Throw e, w1) ->
  dispatch_to this k fh p req res s =
  (Throw e, {| world := w1; trace := trace s ++ [Validated req] |}).
Proof.
  intros Hv.
  cbv beta zeta delta [dispatch_to bind call_out]. rewrite Hv. reflexivity.
Qed.

Lemma dispatch_to_run this k fh p req res s :
  truthy p = false \/ isArray p = true ->
  exists events,
    trace (snd (dispatch_to this k fh p req res s)) = (trace s ++ events)%list /\
    dispatch_run req events.
Proof.
  intros Hp.
  destruct (validator this req (world s)) as [[vr|e] w1] eqn:Hv.
  - destruct (strictly_false (ValidatorReturn.success vr)) eqn:Hs.
    + rewrite (dispatch_to_rejected World this k fh p req res s vr w1 Hv Hs).
      eexists. split; [reflexivity|]. right. left. reflexivity.
    + destruct (metadata_refusal vr) as [refusal|] eqn:Ht.
      { rewrite (dispatch_to_refused World this k fh p req res s vr w1 refusal
                   Hv Hs Ht).
        eexists. split; [reflexivity|]. right. left. reflexivity. }
      destruct (call fh (context_of vr req res) (arguments_of p) w1)
        as [c w2] eqn:Hc.
      destruct (outcome c) as [v|e] eqn:Ho.
      * rewrite (dispatch_to_returned World this k fh p req res s vr w1 c w2 v
                   Hv Hs Ht Hp Hc Ho).
        eexists. split; [reflexivity|]. right. right.
        do 3 eexists. left. reflexivity.
      * destruct (renderer_of this e) as [render|] eqn:Hr.
        -- destruct e as [e| |]; simpl in Hr; try discriminate Hr.
           destruct (render (error_params e) w2) as [cr w3] eqn:Hm.
           rewrite (dispatch_to_rendered World this k fh p req res s vr w1 c w2
                      e render cr w3 Hv Hs Ht Hp Hc Ho Hr Hm).
           eexists. split; [reflexivity|]. right. right.
           do 3 eexists. right. left. do 2 eexists. reflexivity.
        -- rewrite (dispatch_to_unrendered World this k fh p req res s vr w1 c
                      w2 e Hv Hs Ht Hp Hc Ho Hr).
           eexists. split; [reflexivity|]. right. right.
           do 3 eexists. right. right. eexists. reflexivity.
  - rewrite (dispatch_to_validator_threw this k fh p req res s e w1 Hv).
    eexists. split; [reflexivity|]. right. left. reflexivity.
Qed.

Lemma handler_lookup_miss this rq req res s k :
  passes_shape_validation rq k ->
  Map.get (functions this) k = None ->
  handler this rq req res s =
  (Normal {| success := false; data := None;
             error := Some ("RPC function '" ++ k ++ "' not found");
             code := 400%float |}, s).
Proof.
  intros (Hm & Hk & Hp) Hget.
  unfold handler. cbv zeta. rewrite Hm, (truthy_JStr k Hk). simpl negb. cbv iota.
  replace (truthy (params rq) && negb (isArray (params rq))) with false.
  - rewrite Hget. reflexivity.
  - destruct Hp as [H|H]; rewrite H; [reflexivity | apply eq_sym, andb_false_r].
Qed.

(** X1.  In one dispatch the validator runs at most once, the handler at
    most once and only after the validator, and a renderer or a log line
    comes only after the handler: whatever the request, the registry and
    the registered functions, the events of a dispatch are one of
    nothing; the validation; validation and invocation; validation,
    invocation and one rendering; validation, invocation and one log
    line. *)
Theorem dispatch_event_order this rq req res s :
  exists events,
    trace (snd (handler this rq req res s)) = (trace s ++ events)%list /\
    dispatch_run req events.
Proof.
  destruct (shape_cases rq) as [H|[[H1 H2]|[(H1 & H2 & H3 & H4)|[k Hk]]]].
  1-3: exists []; split; [|left; reflexivity]; rewrite app_nil_r;
       unfold handler; cbv zeta.
  - rewrite H. reflexivity.
  - rewrite H1. destruct (method rq); try discriminate H2; reflexivity.
  - rewrite H1, H3, H4. destruct (method rq); try discriminate H2. reflexivity.
  - destruct (Map.get (functions this) k) as [fh|] eqn:Hget.
    + rewrite (handler_resolved World this rq req res k fh Hk Hget).
      apply dispatch_to_run. exact (proj2 (proj2 Hk)).
    + rewrite (handler_lookup_miss this rq req res s k Hk Hget).
      exists []. split; [apply eq_sym, app_nil_r | left; reflexivity].
Qed.

(** X2.  The dispatcher does not catch what the validator throws: the
    call is rejected with that very exception, after the validator and
    before any handler runs. *)
Theorem validator_exception_escapes this rq req res s k fh e w1 :
  passes_shape_validation rq k ->
  Map.get (functions this) k = Some fh ->
  validator this req (world s) = (Throw e, w1) ->
  handler this rq req res s =
  (Throw e, {| world := w1; trace := trace s ++ [Validated req] |}).
Proof.
  intros Hshape Hget Hv.
  rewrite (handler_resolved World this rq req res k fh Hshape Hget).
  apply dispatch_to_validator_threw. exact Hv.
Qed.

(** X3.  Nor does it catch what a renderer throws: when the handler fails
    with an [RPCError] and the renderer of its label throws, the call is
    rejected with the renderer's exception.  The dispatch is one that
    gets to the handler: the validator's metadata, if there is one, takes
    the assignments of [req] and [res]. *)
Theorem renderer_exception_escapes
  this rq req res s k fh vr w1 c w2 e render x w3 :
  passes_shape_validation rq k ->
  Map.get (functions this) k = Some fh ->
  validator this req (world s) = (Normal vr, w1) ->
  ValidatorReturn.success vr <> JBool false ->
  metadata_refusal vr = None ->
  call fh (context_of vr req res) (arguments_of (params rq)) w1 = (c, w2) ->
  outcome c = Throw (ThrownRPCError e) ->
  Map.get (error_handlers_registry this) (error_label e) = Some render ->
  render (error_params e) w2 = (Throw x, w3) ->
  handler this rq req res s =
  (Throw x,
   {| world := w3;
      trace := trace s ++ [Validated req;
                           Invoked k (context_of vr req res)
                                   (arguments_of (params rq));
                           Rendered (error_label e) (error_params e)] |}).
Proof.
  intros Hshape Hget Hv Hs Ht Hc Ho Hr Hm.
  rewrite (handler_resolved World this rq req res k fh Hshape Hget).
  destruct Hshape as (_ & _ & Hp).
  apply strictly_false_spec in Hs.
  rewrite (dispatch_to_rendered World this k fh (params rq) req res s vr w1 c w2 e
             render (Throw x) w3 Hv Hs Ht Hp Hc Ho Hr Hm).
  reflexivity.
Qed.

(** X24.  The assignments [metadata.req = req] and [metadata.res = res]
    are made on the validator's own object and outside the [try]: when
    the validator authorizes with a metadata object that refuses them (a
    frozen one, say), the call is rejected with what the assignment
    throws, after the validator and before any handler runs. *)
Theorem refused_metadata_escapes this rq req res s k fh vr w1 e :
  passes_shape_validation rq k ->
  Map.get (functions this) k = Some fh ->
  validator this req (world s) = (Normal vr, w1) ->
  ValidatorReturn.success vr <> JBool false ->
  metadata_refusal vr = Some e ->
  handler this rq req res s =
  (Throw e, {| world := w1; trace := trace s ++ [Validated req] |}).
Proof.
  intros Hshape Hget Hv Hs Ht.
  rewrite (handler_resolved World this rq req res k fh Hshape Hget).
  apply strictly_false_spec in Hs.
  exact (dispatch_to_refused World this k fh (params rq) req res s vr w1 e
           Hv Hs Ht).
Qed.

(** X5.  Registering a handler leaves the dispatch of every other method
    as it was. *)
Theorem add_leaves_other_methods this fh n this' rq req res :
  add this fh n = Normal this' ->
  method rq <> JStr (registered_name (fh, n)) ->
  handler this' rq req res = handler this rq req res.
Proof.
  intros Hadd Hother. apply add_inv in Hadd as (_ & Hf & He & Hv).
  unfold handler. cbv zeta. rewrite Hf, He, Hv.
  destruct (method rq) as [| | | |m| |]; try reflexivity.
  rewrite MapFacts.get_set_other; [reflexivity|].
  intros E. apply Hother. rewrite E. reflexivity.
Qed.

(** X6.  [add] registers a handler under the explicit name when one is
    given and not empty, and under the function's own name otherwise; it
    throws [Function must have a name] exactly when both are missing, and
    after a successful [add] the name resolves to that handler. *)
Theorem add_names_the_handler this fh n :
  (name fh = "" -> n = None \/ n = Some "" ->
   add this fh n = Throw (ThrownError "Function must have a name")) /\
  (forall k, n = Some k -> k <> "" ->
   exists this', add this fh n = Normal this' /\
                 Map.get (functions this') k = Some fh) /\
  (name fh <> "" -> n = None \/ n = Some "" ->
   exists this', add this fh n = Normal this' /\
                 Map.get (functions this') (name fh) = Some fh).
Proof.
  rewrite add_unfold. unfold registered_name. simpl. repeat split.
  - intros Hname [->| ->]; simpl; rewrite Hname; reflexivity.
  - intros k -> Hk. destruct (String.eqb_spec k "") as [E|_]; [contradiction|].
    destruct (String.eqb_spec k "") as [E|_]; [contradiction|].
    eexists. split; [reflexivity|]. apply MapFacts.get_set_same.
  - intros Hname [->| ->]; simpl;
      (destruct (String.eqb_spec (name fh) "") as [E|_]; [contradiction|]);
      (eexists; split; [reflexivity|]; apply MapFacts.get_set_same).
Qed.

(** X7.  Renderers are last-write-wins too: after two [handleError] calls
    for one label, a handler that fails with an [RPCError] of that label
    is answered with the second renderer's message and the error's own
    status code.  The dispatch is one that
    gets to the handler: the validator's metadata, if there is one, takes
    the assignments of [req] and [res]. *)
Theorem handleError_twice_last_wins
  this label r1 r2 rq req res s k fh vr w1 c w2 e msg w3 :
  passes_shape_validation rq k ->
  Map.get (functions this) k = Some fh ->
  validator this req (world s) = (Normal vr, w1) ->
  ValidatorReturn.success vr <> JBool false ->
  metadata_refusal vr = None ->
  call fh (context_of vr req res) (arguments_of (params rq)) w1 = (c, w2) ->
  outcome c = Throw (ThrownRPCError e) ->
  error_label e = label ->
  r2 (error_params e) w2 = (Normal msg, w3) ->
  handler (handleError (handleError this label r1) label r2) rq req res s =
  (Normal {| success := false; data := None; error := Some msg;
             code := status_code e |},
   {| world := w3;
      trace := trace s ++ [Validated req;
                           Invoked k (context_of vr req res)
                                   (arguments_of (params rq));
                           Rendered (error_label e) (error_params e)] |}).
Proof.
  intros Hshape Hget Hv Hs Ht Hc Ho Hl Hm.
  rewrite (handler_resolved World
             (handleError (handleError this label r1) label r2)
             rq req res k fh Hshape Hget).
  destruct Hshape as (_ & _ & Hp).
  apply strictly_false_spec in Hs.
  assert (Hr : Map.get (error_handlers_registry
                          (handleError (handleError this label r1) label r2))
                       (error_label e) = Some r2).
  { rewrite Hl. simpl. apply MapFacts.get_set_same. }
  rewrite (dispatch_to_rendered World
             (handleError (handleError this label r1) label r2)
             k fh (params rq) req res s vr w1 c w2 e
             r2 (Normal msg) w3 Hv Hs Ht Hp Hc Ho Hr Hm).
  reflexivity.
Qed.

End DispatchMore.

(** ** Properties of the HTTP binding *)

Section HttpProperties.

Variable World : Type.
Variable status_json : Response -> number -> ReplyBody -> Effect World unit.
Implicit Types (rpc : RPC World) (s : Store World).

Ltac run_route :=
  cbv beta zeta delta [call_route try_catch host_call bind].

(** X8.  A request whose body is missing, falsy or without keys is
    answered 400 [Invalid JSON] before the dispatcher is entered: nothing
    is validated, looked up or invoked. *)
Theorem route_rejects_empty_body rpc req res s w' :
  truthy (body req) = false \/ has_no_keys (body req) = true ->
  status_json res 400%float (ErrorBody "Invalid JSON") (world s) = (Normal tt, w') ->
  call_route status_json rpc req res s =
  (Normal tt, {| world := w'; trace := trace s |}).
Proof.
  intros Hb Hsend. run_route.
  replace (negb (truthy (body req)) || has_no_keys (body req)) with true.
  - rewrite Hsend. reflexivity.
  - destruct Hb as [H|H]; rewrite H; [reflexivity | apply eq_sym, orb_true_r].
Qed.

(** X9.  A body whose [version] is not the number 1 is answered 400 with
    a message that names the least supported client version, before the
    dispatcher is entered. *)
Theorem route_rejects_other_versions rpc req res s w' :
  truthy (body req) = true ->
  has_no_keys (body req) = false ->
  strict_equal_number (prop (body req) "version") api_version = false ->
  status_json res 400%float
    (ErrorBody ("Invalid API version: make sure you are using the version of the client >= "
                ++ least_supported_client_version)) (world s) = (Normal tt, w') ->
  call_route status_json rpc req res s =
  (Normal tt, {| world := w'; trace := trace s |})
  /\ includes "0.2.1"
       ("Invalid API version: make sure you are using the version of the client >= "
        ++ least_supported_client_version) = true.
Proof.
  intros Ht Hk Hver Hsend. split; [|reflexivity]. run_route.
  rewrite Ht, Hk, Hver. cbn [negb orb]. rewrite Hsend. reflexivity.
Qed.

(** X10.  For a body with keys and version 1, the reply carries the
    dispatcher's envelope as it is, and the HTTP status is the envelope's
    [code]. *)
Theorem route_status_mirrors_code rpc req res s resp s1 w' :
  truthy (body req) = true ->
  has_no_keys (body req) = false ->
  strict_equal_number (prop (body req) "version") api_version = true ->
  handler rpc (as_request (body req)) req res s = (Normal resp, s1) ->
  status_json res (code resp) (EnvelopeBody resp) (world s1) = (Normal tt, w') ->
  call_route status_json rpc req res s =
  (Normal tt, {| world := w'; trace := trace s1 |}).
Proof.
  intros Ht Hk Hver Hrun Hsend. run_route.
  rewrite Ht, Hk, Hver. cbn [negb orb]. rewrite Hrun, Hsend. reflexivity.
Qed.

(** X11.  What the dispatcher throws (an exception of the validator or of
    a renderer) is answered 500 [Internal server error 500]: the reply is
    the same whatever was thrown. *)
Theorem route_hides_dispatcher_exception rpc req res s e s1 c w' :
  truthy (body req) = true ->
  has_no_keys (body req) = false ->
  strict_equal_number (prop (body req) "version") api_version = true ->
  handler rpc (as_request (body req)) req res s = (Throw e, s1) ->
  status_json res 500%float (ErrorBody "Internal server error 500") (world s1)
    = (c, w') ->
  call_route status_json rpc req res s = (c, {| world := w'; trace := trace s1 |}).
Proof.
  intros Ht Hk Hver Hrun Hsend. run_route.
  rewrite Ht, Hk, Hver. cbn [negb orb]. rewrite Hrun, Hsend. reflexivity.
Qed.

(** X12.  The route lets nothing escape to Express: as long as sending
    the 500 reply does not itself throw, the route completes normally for
    every request, whatever the validator, the handlers, the renderers
    and the other sends do. *)
Theorem route_never_throws rpc req res s :
  (forall w, exists w',
     status_json res 500%float (ErrorBody "Internal server error 500") w
     = (Normal tt, w')) ->
  exists s', call_route status_json rpc req res s = (Normal tt, s').
Proof.
  intros Hsend. run_route.
  match goal with
  | |- context [match ?body s with _ => _ end] => destruct (body s) as [[[]|e] s1]
  end.
  - eexists. reflexivity.
  - destruct (Hsend (world s1)) as (w' & ->). eexists. reflexivity.
Qed.

End HttpProperties.

(** ** Properties of [createRPC] and [cookieParser] *)

Section Mounting.

Variable World : Type.
Implicit Types (app : App) (mounts : list (string * Validator World)).

Lemma mount_all_loaded app mounts :
  truthy (app_get app "enders-sync-dependencies-loaded") = true ->
  stack (mount_all app mounts) = (stack app ++ map call_path mounts)%list.
Proof.
  revert app. induction mounts as [|[path v] mounts IH]; intros app Hflag; simpl.
  - rewrite app_nil_r. reflexivity.
  - unfold createRPC. rewrite Hflag. simpl. rewrite IH.
    + simpl. rewrite <- app_assoc. reflexivity.
    + exact Hflag.
Qed.

(** X13.  However many RPC endpoints are created on one application,
    [cookieParser] is installed once, by the first [createRPC] and ahead
    of its route, and every [createRPC] adds one POST route at
    [path/call], in order.  On an application that already carries the
    flag, nothing but the routes is added. *)
Theorem createRPC_installs_cookieParser_once app mounts :
  (truthy (app_get app "enders-sync-dependencies-loaded") = false ->
   mounts <> [] ->
   stack (mount_all app mounts)
   = (stack app ++ Use_cookieParser :: map call_path mounts)%list) /\
  (truthy (app_get app "enders-sync-dependencies-loaded") = true ->
   stack (mount_all app mounts) = (stack app ++ map call_path mounts)%list).
Proof.
  split; [|apply mount_all_loaded].
  intros Hflag Hne. destruct mounts as [|[path v] mounts]; [contradiction|].
  simpl. unfold createRPC. rewrite Hflag. simpl.
  rewrite mount_all_loaded.
  - simpl. repeat rewrite <- app_assoc. reflexivity.
  - unfold app_get. simpl. rewrite MapFacts.get_set_same. reflexivity.
Qed.

End Mounting.


(** ** Properties of the first version ([part_000]) *)

Lemma split_on_cons (c : ascii) (s : string) :
  split_on c s =
  before_first c s ::
  (if has_char c s then split_on c (after_first c s) else []).
Proof.
  induction s as [|a rest IH]; simpl; [reflexivity|].
  destruct (Ascii.eqb a c); simpl; [reflexivity|].
  rewrite IH. reflexivity.
Qed.

Lemma join_split_on (c : ascii) (s : string) :
  join (String c EmptyString) (split_on c s) = s.
Proof.
  induction s as [|a rest IH]; simpl; [reflexivity|].
  destruct (Ascii.eqb_spec a c) as [E|N].
  - subst a. destruct (split_on c rest) as [|p ps] eqn:E.
    + rewrite split_on_cons in E. discriminate E.
    + simpl in IH |- *. rewrite IH. reflexivity.
  - destruct (split_on c rest) as [|p ps] eqn:E.
    + rewrite split_on_cons in E. discriminate E.
    + destruct ps as [|q qs]; simpl in IH |- *; rewrite <- IH; reflexivity.
Qed.

Lemma after_first_absent (c : ascii) (s : string) :
  has_char c s = false -> after_first c s = "".
Proof.
  induction s as [|a rest IH]; simpl; [reflexivity|].
  destruct (Ascii.eqb a c); simpl; [discriminate | exact IH].
Qed.

Lemma join_tail_split_on (c : ascii) (s : string) :
  join (String c EmptyString) (tl (split_on c s)) = after_first c s.
Proof.
  rewrite split_on_cons. simpl. destruct (has_char c s) eqn:H.
  - apply join_split_on.
  - rewrite after_first_absent by assumption. reflexivity.
Qed.

Lemma before_first_absent (c : ascii) (s : string) :
  has_char c s = false -> before_first c s = s.
Proof.
  induction s as [|a rest IH]; simpl; [reflexivity|].
  destruct (Ascii.eqb a c); simpl; [discriminate|].
  intros H. rewrite IH by assumption. reflexivity.
Qed.

Lemma split_on_absent (c : ascii) (s : string) :
  has_char c s = false -> split_on c s = [s].
Proof.
  intros H. rewrite split_on_cons, H, before_first_absent by assumption.
  reflexivity.
Qed.

Lemma split_on_snoc (c : ascii) (rest segment : string) :
  has_char c segment = false ->
  split_on c (rest ++ String c segment) = (split_on c rest ++ [segment])%list.
Proof.
  intros H. induction rest as [|a rest IH]; simpl.
  - rewrite Ascii.eqb_refl, split_on_absent by assumption. reflexivity.
  - destruct (Ascii.eqb a c); rewrite IH; [reflexivity|].
    destruct (split_on c rest) as [|p ps] eqn:E; [|reflexivity].
    rewrite split_on_cons in E. discriminate E.
Qed.

Lemma map_completion_snoc {A B : Type} (f : A -> Completion B)
  (items : list A) (item : A) (bs : list B) :
  map_completion f (items ++ [item]) = Normal bs ->
  exists bs' b, map_completion f items = Normal bs' /\ f item = Normal b /\
                bs = (bs' ++ [b])%list.
Proof.
  revert bs. induction items as [|x items IH]; simpl; intros bs H.
  - destruct (f item) as [b|e]; [|discriminate]. injection H as <-.
    exists [], b. auto.
  - destruct (f x) as [b0|e]; [|discriminate].
    destruct (map_completion f (items ++ [item])) as [bs0|e]; [|discriminate].
    injection H as <-. destruct (IH bs0 eq_refl) as (bs' & b & -> & Hb & ->).
    exists (b0 :: bs'), b. auto.
Qed.

Lemma map_completion_throws {A B : Type} (f : A -> Completion B) (items : list A) :
  (exists e, map_completion f items = Throw e) <->
  (exists item e, In item items /\ f item = Throw e).
Proof.
  induction items as [|x items IH]; simpl.
  - split; [intros [e H]; discriminate | intros (item & e & [] & _)].
  - destruct (f x) as [b|e0] eqn:Hx.
    + destruct (map_completion f items) as [bs|e1].
      * split; [intros [e H]; discriminate|].
        intros (item & e & [<-|Hin] & He); [congruence|].
        destruct (proj2 IH) as [e' He']; [eauto | discriminate].
      * split; [|eauto]. intros _.
        destruct (proj1 IH) as (item & e & Hin & He); eauto.
    + split; eauto.
Qed.

Lemma fromEntries_snoc (entries : list (string * string)) (k v : string) :
  Map.get (fromEntries (entries ++ [(k, v)])) k = Some v.
Proof.
  unfold fromEntries. rewrite fold_left_app. simpl.
  apply MapFacts.get_set_same.
Qed.

Section FirstVersion.

Variable World : Type.
Variable trim : string -> string.
Variable decodeURIComponent : string -> Completion string.
Variable String_of : Thrown -> string.
Variable json : Response -> V0.ReplyBody -> Effect World unit.
Variable status_json : Response -> number -> V0.ReplyBody -> Effect World unit.

Lemma cookie_entry_unfold (v : string) :
  V0.cookie_entry trim decodeURIComponent v =
  match decodeURIComponent (after_first "=" v) with
  | Normal value => Normal (trim (before_first "=" v), value)
  | Throw e => Throw e
  end.
Proof.
  unfold V0.cookie_entry.
  rewrite <- (join_tail_split_on "=" v). rewrite split_on_cons. reflexivity.
Qed.

(** X15.  An entry of the cookie header is cut at its first [=]: the name
    is the trimmed text before it, the value the decoding of all the text
    after it, further [=] included; an entry without [=] is a name with
    the decoding of the empty string as its value. *)
Theorem cookie_entry_cuts_at_first_equals (v : string) :
  V0.cookie_entry trim decodeURIComponent v =
  match decodeURIComponent (after_first "=" v) with
  | Normal value => Normal (trim (before_first "=" v), value)
  | Throw e => Throw e
  end
  /\ (has_char "=" v = false -> before_first "=" v = v /\ after_first "=" v = "")
  /\ (forall k rest, has_char "=" k = false -> v = k ++ "=" ++ rest ->
      before_first "=" v = k /\ after_first "=" v = rest).
Proof.
  split; [apply cookie_entry_unfold|]. split.
  - intros H. split; [apply before_first_absent | apply after_first_absent];
      exact H.
  - intros k rest Hk ->. induction k as [|a k IH]; simpl in *.
    + split; reflexivity.
    + destruct (Ascii.eqb a "="); simpl in Hk; [discriminate|].
      destruct (IH Hk) as [-> ->]. split; reflexivity.
Qed.

(** X16.  [cookieParser] throws exactly when the header is not empty and
    [decodeURIComponent] throws on the value of one of its entries; a
    request without a [Cookie] header, or with an empty one, always goes
    on, with no cookies. *)
Theorem cookieParser_throws_iff (req : Request) :
  ((exists e, V0.cookieParser trim decodeURIComponent req = Throw e) <->
   (exists header entry e,
      headers_cookie req = Some header /\ header <> "" /\
      In entry (split_on ";" header) /\
      decodeURIComponent (after_first "=" entry) = Throw e))
  /\ (headers_cookie req = None \/ headers_cookie req = Some "" ->
      V0.cookieParser trim decodeURIComponent req =
      Normal {| headers_cookie := headers_cookie req; cookies := [];
                body := body req |}).
Proof.
  split.
  - unfold V0.cookieParser.
    destruct (headers_cookie req) as [[|c rest]|] eqn:Hh.
    + split; [intros [e H]; discriminate|].
      intros (header & entry & e & H & Hne & _). injection H as <-. congruence.
    + destruct (map_completion (V0.cookie_entry trim decodeURIComponent)
                  (split_on ";" (String c rest))) as [entries|e0] eqn:Hmap.
      * split; [intros [e H]; discriminate|].
        intros (header & entry & e & H & _ & Hin & He). injection H as <-.
        destruct (proj2 (map_completion_throws
                           (V0.cookie_entry trim decodeURIComponent)
                           (split_on ";" (String c rest)))) as [e' He'].
        { exists entry, e. split; [exact Hin|].
          rewrite cookie_entry_unfold, He. reflexivity. }
        congruence.
      * split; [|eauto]. intros _.
        destruct (proj1 (map_completion_throws
                           (V0.cookie_entry trim decodeURIComponent)
                           (split_on ";" (String c rest)))
                        (ex_intro _ e0 Hmap))
          as (entry & e & Hin & He).
        rewrite cookie_entry_unfold in He.
        destruct (decodeURIComponent (after_first "=" entry)) as [value|e1] eqn:Hd;
          [discriminate|].
        exists (String c rest), entry, e1. repeat split; try assumption.
        discriminate.
    + split; [intros [e H]; discriminate|].
      intros (header & entry & e & H & _). discriminate H.
  - unfold V0.cookieParser. intros [-> | ->]; reflexivity.
Qed.

(** X17.  When a cookie name comes more than once, the last one wins: the
    cookies parsed from a header that ends in [; entry] map the name of
    [entry] to the value of [entry], whatever came before. *)
Theorem last_cookie_wins (req req' : Request) (before entry : string) :
  headers_cookie req = Some (before ++ ";" ++ entry) ->
  has_char ";" entry = false ->
  V0.cookieParser trim decodeURIComponent req = Normal req' ->
  exists value,
    decodeURIComponent (after_first "=" entry) = Normal value /\
    Map.get (cookies req') (trim (before_first "=" entry)) = Some value.
Proof.
  intros Hh Hentry. unfold V0.cookieParser. rewrite Hh.
  destruct (before ++ ";" ++ entry) as [|c rest] eqn:E.
  { destruct before; discriminate E. }
  rewrite <- E. change (before ++ ";" ++ entry) with (before ++ String ";" entry).
  rewrite (split_on_snoc ";" before entry Hentry).
  destruct (map_completion _ _) as [entries|e] eqn:Hmap; [|discriminate].
  intros H. injection H as <-. simpl.
  apply map_completion_snoc in Hmap as (entries' & [k v] & _ & He & ->).
  rewrite cookie_entry_unfold in He.
  destruct (decodeURIComponent (after_first "=" entry)) as [value|e];
    [|discriminate].
  injection He as <- <-. exists value. split; [reflexivity|].
  apply fromEntries_snoc.
Qed.

Implicit Types (this : V0.RPC World) (fh : V0.RPCHandler World) (s : Store World).

Ltac run_v0 :=
  cbv beta zeta delta [V0.handler bind try_catch host_call lift ret
                       console_error emit].

(** X18.  The first version tells the caller what went wrong inside: when
    the handler throws an [Error], the response's error text is that
    error's message. *)
Theorem first_version_echoes_the_message this rq cookie s k fh vr w1 message w2 :
  V0.method rq = JStr k -> k <> "" ->
  truthy (V0.params rq) = false \/ isArray (V0.params rq) = true ->
  Map.get (V0.functions this) k = Some fh ->
  V0.validator this cookie (world s) = (Normal vr, w1) ->
  V0.ValidatorReturn.success vr <> JBool false ->
  V0.call fh (V0.ValidatorReturn.metadata vr) (arguments_of (V0.params rq)) w1
    = (Throw (ThrownError message), w2) ->
  V0.handler String_of this rq cookie s =
  (Normal {| V0.success := false; V0.data := None; V0.error := Some message |},
   {| world := w2;
      trace := trace s ++ [ConsoleError (LogThrown (ThrownError message))] |}).
Proof.
  intros Hm Hk Hp Hget Hv Hs Hc. apply strictly_false_spec in Hs.
  run_v0. rewrite Hm, (truthy_JStr k Hk). cbn [negb].
  replace (truthy (V0.params rq) && negb (isArray (V0.params rq))) with false
    by (destruct Hp as [H|H]; rewrite H;
        [reflexivity | apply eq_sym, andb_false_r]).
  rewrite Hget, Hv, Hs, (spread_arguments _ Hp). cbn [world trace].
  rewrite Hc. reflexivity.
Qed.

(** X19.  The first version does not await the handler: when an [async]
    handler's promise is rejected, the response is still [success: true],
    with the promise itself as [data], and nothing is logged. *)
Theorem first_version_does_not_await this rq cookie s k fh vr w1 e w2 :
  V0.method rq = JStr k -> k <> "" ->
  truthy (V0.params rq) = false \/ isArray (V0.params rq) = true ->
  Map.get (V0.functions this) k = Some fh ->
  V0.validator this cookie (world s) = (Normal vr, w1) ->
  V0.ValidatorReturn.success vr <> JBool false ->
  V0.call fh (V0.ValidatorReturn.metadata vr) (arguments_of (V0.params rq)) w1
    = (Normal (Rejected e), w2) ->
  V0.handler String_of this rq cookie s =
  (Normal {| V0.success := true; V0.data := Some (Rejected e);
             V0.error := None |},
   {| world := w2; trace := trace s |}).
Proof.
  intros Hm Hk Hp Hget Hv Hs Hc. apply strictly_false_spec in Hs.
  run_v0. rewrite Hm, (truthy_JStr k Hk). cbn [negb].
  replace (truthy (V0.params rq) && negb (isArray (V0.params rq))) with false
    by (destruct Hp as [H|H]; rewrite H;
        [reflexivity | apply eq_sym, andb_false_r]).
  rewrite Hget, Hv, Hs, (spread_arguments _ Hp). cbn [world trace].
  rewrite Hc. reflexivity.
Qed.

Lemma first_version_add_inv this fh this' :
  V0.add this fh = Normal this' ->
  V0.functions this' = Map.set (V0.functions this) (V0.name fh) fh.
Proof.
  unfold V0.add. destruct (V0.name fh =? ""); [discriminate|].
  intros H. injection H as <-. reflexivity.
Qed.

Lemma first_version_dump_register_all (handlers : list (V0.RPCHandler World)) :
  forall this this',
    V0.register_all this handlers = Normal this' ->
    V0.dump this' =
    (V0.dump this ++ filter (fun x => negb (among (V0.dump this) x))
                            (first_occurrences (map V0.name handlers)))%list.
Proof.
  induction handlers as [|fh handlers IH]; simpl; intros this this' H.
  - injection H as <-. rewrite app_nil_r. reflexivity.
  - destruct (V0.add this fh) as [this1|e] eqn:E; [|discriminate].
    apply IH in H. rewrite H. clear H IH.
    apply first_version_add_inv in E.
    unfold V0.dump in *. rewrite E.
    destruct (in_dec string_dec (V0.name fh) (Map.keys (V0.functions this)))
      as [Hin|Hout].
    + rewrite MapFacts.keys_set_present by assumption.
      assert (A : among (Map.keys (V0.functions this)) (V0.name fh) = true)
        by (apply among_In; assumption).
      rewrite A. simpl. rewrite filter_outside_present by assumption. reflexivity.
    + rewrite MapFacts.keys_set_fresh by assumption.
      assert (A : among (Map.keys (V0.functions this)) (V0.name fh) = false).
      { destruct (among _ _) eqn:A; [|reflexivity].
        apply among_In in A. contradiction. }
      rewrite A. simpl. rewrite <- app_assoc. simpl.
      rewrite filter_outside_fresh. reflexivity.
Qed.


End FirstVersion.

(** ** The further properties on the sample hosts *)

(** X2 on the HTTP sample: the validator's exception comes out of the
    dispatcher as it is. *)
Lemma validator_exception_escapes_witness :
  handler (set_validator HttpSample.rpc HttpSample.broken_validator)
          (as_request HttpSample.echo_hi)
          (HttpSample.post HttpSample.echo_hi) HttpSample.response
          HttpSample.start =
  (Throw (ThrownError "jwt secret not configured"),
   {| world := [];
      trace := [Validated (HttpSample.post HttpSample.echo_hi)] |}).
Proof.
  apply (validator_exception_escapes HttpSample.World
           (set_validator HttpSample.rpc HttpSample.broken_validator)
           (as_request HttpSample.echo_hi)
           (HttpSample.post HttpSample.echo_hi) HttpSample.response
           HttpSample.start "echo" HttpSample.echo
           (ThrownError "jwt secret not configured") []).
  - split; [reflexivity|]. split; [discriminate | right; reflexivity].
  - reflexivity.
  - reflexivity.
Defined.

(** X3 on the HTTP sample: [brew] fails with label [teapot], whose
    renderer throws. *)
Lemma renderer_exception_escapes_witness :
  handler (handleError HttpSample.rpc "teapot" HttpSample.broken_message)
          (Sample.call_of "brew" JUndefined)
          (HttpSample.post JNull) HttpSample.response HttpSample.start =
  (Throw (ThrownError "no template"),
   {| world := [];
      trace := [Validated (HttpSample.post JNull);
                Invoked "brew"
                  {| auth := []; req := Some (HttpSample.post JNull);
                     res := Some HttpSample.response |}
                  [];
                Rendered "teapot" []] |}).
Proof.
  apply (renderer_exception_escapes HttpSample.World
           (handleError HttpSample.rpc "teapot" HttpSample.broken_message)
           (Sample.call_of "brew" JUndefined)
           (HttpSample.post JNull) HttpSample.response HttpSample.start
           "brew" HttpSample.brew
           {| ValidatorReturn.success := JBool true;
              ValidatorReturn.metadata := None |}
           []
           (Throw (ThrownRPCError {| error_label := "teapot"; error_params := [];
                                     status_code := 418%float |}))
           []
           {| error_label := "teapot"; error_params := [];
              status_code := 418%float |}
           HttpSample.broken_message (ThrownError "no template") []).
  - split; [reflexivity|]. split; [discriminate | left; reflexivity].
  - reflexivity.
  - reflexivity.
  - discriminate.
  - reflexivity.
  - reflexivity.
  - reflexivity.
  - reflexivity.
  - reflexivity.
Defined.


(** X5 on the sample host: registering [echo2] as [v2] leaves [brew] as
    it was. *)
Lemma add_leaves_other_methods_witness :
  handler {| error_handlers_registry := [];
             functions := [("echo", Sample.echo); ("brew", Sample.brew);
                           ("boom", Sample.crash); ("v2", Sample.echo2)];
             validator := default_validator Sample.World |}
          (Sample.call_of "brew" JNull) Sample.request Sample.response
  = handler Sample.rpc (Sample.call_of "brew" JNull)
            Sample.request Sample.response.
Proof.
  apply (add_leaves_other_methods Sample.World Sample.rpc Sample.echo2 (Some "v2")).
  - reflexivity.
  - discriminate.
Defined.

(** X6 on the sample host: an anonymous function needs a name. *)
Lemma add_names_the_handler_witness :
  add Sample.rpc {| name := ""; call := call Sample.echo |} (Some "")
    = Throw (ThrownError "Function must have a name") /\
  exists this',
    add Sample.rpc {| name := ""; call := call Sample.echo |} (Some "again")
      = Normal this' /\
    Map.get (functions this') "again"
      = Some {| name := ""; call := call Sample.echo |}.
Proof.
  split.
  - apply (proj1 (add_names_the_handler Sample.World Sample.rpc
                    {| name := ""; call := call Sample.echo |} (Some ""))).
    + reflexivity.
    + right. reflexivity.
  - apply (proj1 (proj2 (add_names_the_handler Sample.World Sample.rpc
                           {| name := ""; call := call Sample.echo |}
                           (Some "again")))).
    + reflexivity.
    + discriminate.
Defined.

(** X7 on the HTTP sample: the second renderer of [teapot] answers. *)
Lemma handleError_twice_last_wins_witness :
  handler (handleError (handleError HttpSample.rpc "teapot"
                                    HttpSample.first_message)
                       "teapot" HttpSample.second_message)
          (Sample.call_of "brew" JUndefined)
          (HttpSample.post JNull) HttpSample.response HttpSample.start =
  (Normal {| success := false; data := None; error := Some "second";
             code := 418%float |},
   {| world := [];
      trace := [Validated (HttpSample.post JNull);
                Invoked "brew"
                  {| auth := []; req := Some (HttpSample.post JNull);
                     res := Some HttpSample.response |}
                  [];
                Rendered "teapot" []] |}).
Proof.
  apply (handleError_twice_last_wins HttpSample.World HttpSample.rpc "teapot"
           HttpSample.first_message HttpSample.second_message
           (Sample.call_of "brew" JUndefined)
           (HttpSample.post JNull) HttpSample.response HttpSample.start
           "brew" HttpSample.brew
           {| ValidatorReturn.success := JBool true;
              ValidatorReturn.metadata := None |}
           []
           (Throw (ThrownRPCError {| error_label := "teapot"; error_params := [];
                                     status_code := 418%float |}))
           []
           {| error_label := "teapot"; error_params := [];
              status_code := 418%float |}
           "second" []).
  - split; [reflexivity|]. split; [discriminate | left; reflexivity].
  - reflexivity.
  - reflexivity.
  - discriminate.
  - reflexivity.
  - reflexivity.
  - reflexivity.
  - reflexivity.
  - reflexivity.
Defined.

(** X8 on the HTTP sample: a [null] body and an empty object. *)
Lemma route_rejects_empty_body_witness :
  call_route HttpSample.status_json HttpSample.rpc
             (HttpSample.post JNull) HttpSample.response HttpSample.start =
  (Normal tt, {| world := [(400%float, ErrorBody "Invalid JSON")]; trace := [] |})
  /\
  call_route HttpSample.status_json HttpSample.rpc
             (HttpSample.post (JObj [])) HttpSample.response HttpSample.start =
  (Normal tt, {| world := [(400%float, ErrorBody "Invalid JSON")]; trace := [] |}).
Proof.
  split.
  - apply (route_rejects_empty_body HttpSample.World HttpSample.status_json
             HttpSample.rpc (HttpSample.post JNull) HttpSample.response
             HttpSample.start).
    + left. reflexivity.
    + reflexivity.
  - apply (route_rejects_empty_body HttpSample.World HttpSample.status_json
             HttpSample.rpc (HttpSample.post (JObj [])) HttpSample.response
             HttpSample.start).
    + right. reflexivity.
    + reflexivity.
Defined.

(** X9 on the HTTP sample: the version given as the string ["1"]. *)
Lemma route_rejects_other_versions_witness :
  call_route HttpSample.status_json HttpSample.rpc
             (HttpSample.post (JObj [("method", JStr "echo");
                                     ("version", JStr "1")]))
             HttpSample.response HttpSample.start =
  (Normal tt,
   {| world := [(400%float,
                 ErrorBody ("Invalid API version: make sure you are using the version of the client >= "
                            ++ least_supported_client_version))];
      trace := [] |})
  /\ includes "0.2.1"
       ("Invalid API version: make sure you are using the version of the client >= "
        ++ least_supported_client_version) = true.
Proof.
  apply (route_rejects_other_versions HttpSample.World HttpSample.status_json
           HttpSample.rpc
           (HttpSample.post (JObj [("method", JStr "echo"); ("version", JStr "1")]))
           HttpSample.response HttpSample.start).
  - reflexivity.
  - reflexivity.
  - reflexivity.
  - reflexivity.
Defined.

(** X10 on the HTTP sample: [echo("hi")] is answered 200, and an unknown
    method 400, each with its envelope. *)
Lemma route_status_mirrors_code_witness :
  call_route HttpSample.status_json HttpSample.rpc
             (HttpSample.post HttpSample.echo_hi)
             HttpSample.response HttpSample.start =
  (Normal tt,
   {| world := [(200%float,
                 EnvelopeBody {| success := true;
                                 data := Some (JArr [JStr "hi"]);
                                 error := None; code := 200%float |})];
      trace := [Validated (HttpSample.post HttpSample.echo_hi);
                Invoked "echo"
                  {| auth := [];
                     req := Some (HttpSample.post HttpSample.echo_hi);
                     res := Some HttpSample.response |}
                  [JStr "hi"]] |}).
Proof.
  apply (route_status_mirrors_code HttpSample.World HttpSample.status_json
           HttpSample.rpc (HttpSample.post HttpSample.echo_hi)
           HttpSample.response HttpSample.start
           {| success := true; data := Some (JArr [JStr "hi"]);
              error := None; code := 200%float |}
           {| world := [];
              trace := [Validated (HttpSample.post HttpSample.echo_hi);
                        Invoked "echo"
                          {| auth := [];
                             req := Some (HttpSample.post HttpSample.echo_hi);
                             res := Some HttpSample.response |}
                          [JStr "hi"]] |}).
  - reflexivity.
  - reflexivity.
  - reflexivity.
  - reflexivity.
  - reflexivity.
Defined.

(** X11 on the HTTP sample: the validator's message stays inside. *)
Lemma route_hides_dispatcher_exception_witness :
  call_route HttpSample.status_json
             (set_validator HttpSample.rpc HttpSample.broken_validator)
             (HttpSample.post HttpSample.echo_hi)
             HttpSample.response HttpSample.start =
  (Normal tt,
   {| world := [(500%float, ErrorBody "Internal server error 500")];
      trace := [Validated (HttpSample.post HttpSample.echo_hi)] |}).
Proof.
  apply (route_hides_dispatcher_exception HttpSample.World HttpSample.status_json
           (set_validator HttpSample.rpc HttpSample.broken_validator)
           (HttpSample.post HttpSample.echo_hi)
           HttpSample.response HttpSample.start
           (ThrownError "jwt secret not configured")
           {| world := [];
              trace := [Validated (HttpSample.post HttpSample.echo_hi)] |}).
  - reflexivity.
  - reflexivity.
  - reflexivity.
  - reflexivity.
  - reflexivity.
Defined.

(** X12 on the HTTP sample, whose response never throws. *)
Lemma route_never_throws_witness :
  exists s',
    call_route HttpSample.status_json
               (set_validator HttpSample.rpc HttpSample.broken_validator)
               (HttpSample.post HttpSample.echo_hi)
               HttpSample.response HttpSample.start = (Normal tt, s').
Proof.
  apply (route_never_throws HttpSample.World HttpSample.status_json).
  intros w. eexists. reflexivity.
Defined.

(** X13 on a fresh application with two endpoints, set up once more
    after that. *)
Lemma createRPC_installs_cookieParser_once_witness :
  stack (mount_all HttpSample.fresh_app
           [("/api", default_validator HttpSample.World);
            ("/admin", HttpSample.broken_validator)])
  = [Use_cookieParser; Post "/api/call"; Post "/admin/call"]
  /\
  stack (mount_all
           (mount_all HttpSample.fresh_app
              [("/api", default_validator HttpSample.World)])
           [("/admin", HttpSample.broken_validator)])
  = [Use_cookieParser; Post "/api/call"; Post "/admin/call"].
Proof.
  split.
  - apply (proj1 (createRPC_installs_cookieParser_once HttpSample.World
                    HttpSample.fresh_app
                    [("/api", default_validator HttpSample.World);
                     ("/admin", HttpSample.broken_validator)])).
    + reflexivity.
    + discriminate.
  - apply (proj2 (createRPC_installs_cookieParser_once HttpSample.World
                    (mount_all HttpSample.fresh_app
                       [("/api", default_validator HttpSample.World)])
                    [("/admin", HttpSample.broken_validator)])).
    reflexivity.
Defined.

(** X17 on the sample of the first version: [token] sent twice. *)
Lemma last_cookie_wins_witness :
  exists value,
    V0Sample.decodeURIComponent (after_first "=" " token=new=") = Normal value /\
    Map.get [("token", "new=")] (V0Sample.trim (before_first "=" " token=new="))
      = Some value.
Proof.
  apply (last_cookie_wins V0Sample.trim V0Sample.decodeURIComponent
           (V0Sample.with_cookies "token=old; token=new=")
           {| headers_cookie := Some "token=old; token=new=";
              cookies := [("token", "new=")]; body := JNull |}
           "token=old" " token=new=").
  - reflexivity.
  - reflexivity.
  - reflexivity.
Defined.

(** X18 on the sample of the first version: [login] tells who is not
    there. *)
Lemma first_version_echoes_the_message_witness :
  V0.handler V0Sample.String_of V0Sample.rpc
             {| V0.method := JStr "login"; V0.params := JArr [JStr "root"] |}
             "abc" V0Sample.start =
  (Normal {| V0.success := false; V0.data := None;
             V0.error := Some "no such user: root" |},
   {| world := [];
      trace := [ConsoleError (LogThrown (ThrownError "no such user: root"))] |}).
Proof.
  apply (first_version_echoes_the_message V0Sample.World V0Sample.String_of
           V0Sample.rpc
           {| V0.method := JStr "login"; V0.params := JArr [JStr "root"] |}
           "abc" V0Sample.start "login" V0Sample.login
           {| V0.ValidatorReturn.success := JBool true;
              V0.ValidatorReturn.metadata := Some [] |}
           [] "no such user: root" []).
  - reflexivity.
  - discriminate.
  - right. reflexivity.
  - reflexivity.
  - reflexivity.
  - discriminate.
  - reflexivity.
Defined.

(** X19 on the sample of the first version: [fetch] times out, and the
    call succeeds. *)
Lemma first_version_does_not_await_witness :
  V0.handler V0Sample.String_of V0Sample.rpc
             {| V0.method := JStr "fetch"; V0.params := JUndefined |}
             "abc" V0Sample.start =
  (Normal {| V0.success := true;
             V0.data := Some (Rejected (ThrownError "timeout"));
             V0.error := None |},
   {| world := []; trace := [] |}).
Proof.
  apply (first_version_does_not_await V0Sample.World V0Sample.String_of
           V0Sample.rpc
           {| V0.method := JStr "fetch"; V0.params := JUndefined |}
           "abc" V0Sample.start "fetch" V0Sample.fetch
           {| V0.ValidatorReturn.success := JBool true;
              V0.ValidatorReturn.metadata := Some [] |}
           [] (ThrownError "timeout") []).
  - reflexivity.
  - discriminate.
  - left. reflexivity.
  - reflexivity.
  - reflexivity.
  - discriminate.
  - reflexivity.
Defined.


(** ** Properties of the second version *)

Section SecondVersion.

Variable World : Type.
Variable String_of : Thrown -> string.
Variable json : Response -> V1.ReplyBody -> Effect World unit.
Variable status_json : Response -> number -> V1.ReplyBody -> Effect World unit.
Implicit Types (this : V1.RPC World) (fh : RPCHandler World) (s : Store World).

(** X21.  The second version awaits the handler but still tells the
    caller what went wrong inside: when the handler throws an [Error], or
    its promise is rejected with one, the response's error text is that
    error's message.  The dispatch is one that
    gets to the handler: the validator's metadata, if there is one, takes
    the assignments of [req] and [res]. *)
Theorem second_version_echoes_the_message
  this rq req res s k fh vr w1 c w2 message :
  passes_shape_validation rq k ->
  Map.get (V1.functions this) k = Some fh ->
  V1.validator this req (world s) = (Normal vr, w1) ->
  ValidatorReturn.success vr <> JBool false ->
  metadata_refusal vr = None ->
  call fh (context_of vr req res) (arguments_of (params rq)) w1 = (c, w2) ->
  outcome c = Throw (ThrownError message) ->
  V1.handler String_of this rq req res s =
  (Normal {| V1.success := false; V1.data := None; V1.error := Some message |},
   {| world := w2;
      trace := trace s ++ [Validated req;
                           Invoked k (context_of vr req res)
                                   (arguments_of (params rq));
                           ConsoleError (LogThrown (ThrownError message))] |}).
Proof.
  intros (Hm & Hk & Hp) Hget Hv Hs Ht Hc Ho. apply strictly_false_spec in Hs.
  cbv beta zeta delta [V1.handler bind try_catch await call_out lift ret
                       console_error emit] in *.
  rewrite Hm, (truthy_JStr k Hk). cbn [negb].
  replace (truthy (params rq) && negb (isArray (params rq))) with false
    by (destruct Hp as [H|H]; rewrite H;
        [reflexivity | apply eq_sym, andb_false_r]).
  rewrite Hget, Hv, Hs, (assign_request_taken vr req res Ht),
    (spread_arguments _ Hp). cbn [world trace]. rewrite Hc.
  assert (E : match c with Normal r => settle r | Throw e0 => Throw e0 end
              = Throw (ThrownError message)) by exact Ho.
  destruct c as [r|e0].
  - rewrite E. cbn [world trace]. repeat rewrite <- app_assoc. reflexivity.
  - injection E as ->. cbn [world trace]. repeat rewrite <- app_assoc.
    reflexivity.
Qed.

(** X25.  The second version makes the same assignments outside its
    [try]: a metadata object that refuses them makes its dispatcher throw
    what the assignment throws, before any handler runs. *)
Theorem second_version_refused_metadata_escapes this rq req res s k fh vr w1 e :
  passes_shape_validation rq k ->
  Map.get (V1.functions this) k = Some fh ->
  V1.validator this req (world s) = (Normal vr, w1) ->
  ValidatorReturn.success vr <> JBool false ->
  metadata_refusal vr = Some e ->
  V1.handler String_of this rq req res s =
  (Throw e, {| world := w1; trace := trace s ++ [Validated req] |}).
Proof.
  intros (Hm & Hk & Hp) Hget Hv Hs Ht. apply strictly_false_spec in Hs.
  cbv beta zeta delta [V1.handler bind call_out lift].
  rewrite Hm, (truthy_JStr k Hk). cbn [negb].
  replace (truthy (params rq) && negb (isArray (params rq))) with false
    by (destruct Hp as [H|H]; rewrite H;
        [reflexivity | apply eq_sym, andb_false_r]).
  rewrite Hget, Hv, Hs, (assign_request_refused vr req res e Ht). reflexivity.
Qed.

(** X22.  The route of the second version sends every envelope with
    [res.json] alone, setting no status: a failed call goes out the same
    way as a successful one. *)
Theorem second_version_route_sets_no_status this req res s resp s1 w' :
  truthy (body req) = true ->
  has_no_keys (body req) = false ->
  strict_equal_number (prop (body req) "version") api_version = true ->
  V1.handler String_of this (as_request (body req)) req res s = (Normal resp, s1) ->
  json res (V1.EnvelopeBody resp) (world s1) = (Normal tt, w') ->
  V1.call_route String_of json status_json this req res s
  = (Normal tt, {| world := w'; trace := trace s1 |}).
Proof.
  intros Ht Hk Hver Hrun Hsend.
  cbv beta zeta delta [V1.call_route try_catch host_call bind].
  rewrite Ht, Hk, Hver. cbn [negb orb]. rewrite Hrun, Hsend. reflexivity.
Qed.

(** X23.  What the dispatcher of the second version throws is answered
    500 with the text of the exception in the body. *)
Theorem second_version_route_shows_the_exception this req res s e s1 c w' :
  truthy (body req) = true ->
  has_no_keys (body req) = false ->
  strict_equal_number (prop (body req) "version") api_version = true ->
  V1.handler String_of this (as_request (body req)) req res s = (Throw e, s1) ->
  status_json res 500%float
    (V1.ErrorBody ("Internal server error " ++ String_of e)) (world s1) = (c, w') ->
  V1.call_route String_of json status_json this req res s
  = (c, {| world := w'; trace := trace s1 |}).
Proof.
  intros Ht Hk Hver Hrun Hsend.
  cbv beta zeta delta [V1.call_route try_catch host_call bind].
  rewrite Ht, Hk, Hver. cbn [negb orb]. rewrite Hrun, Hsend. reflexivity.
Qed.

End SecondVersion.

(** X21 on the sample of the second version: [fetch] times out. *)
Lemma second_version_echoes_the_message_witness :
  V1.handler V1Sample.String_of V1Sample.rpc (as_request V1Sample.fetch_call)
             (HttpSample.post V1Sample.fetch_call) HttpSample.response
             V1Sample.start =
  (Normal {| V1.success := false; V1.data := None; V1.error := Some "timeout" |},
   {| world := [];
      trace := [Validated (HttpSample.post V1Sample.fetch_call);
                Invoked "fetch"
                  {| auth := [];
                     req := Some (HttpSample.post V1Sample.fetch_call);
                     res := Some HttpSample.response |}
                  [];
                ConsoleError (LogThrown (ThrownError "timeout"))] |}).
Proof.
  apply (second_version_echoes_the_message V1Sample.World V1Sample.String_of
           V1Sample.rpc (as_request V1Sample.fetch_call)
           (HttpSample.post V1Sample.fetch_call) HttpSample.response
           V1Sample.start "fetch" V1Sample.fetch
           {| ValidatorReturn.success := JBool true;
              ValidatorReturn.metadata := None |}
           [] (Normal (Rejected (ThrownError "timeout"))) [] "timeout").
  - split; [reflexivity|]. split; [discriminate | left; reflexivity].
  - reflexivity.
  - reflexivity.
  - discriminate.
  - reflexivity.
  - reflexivity.
  - reflexivity.
Defined.

(** X22 on the sample of the second version: the failure of [fetch] is
    sent without a status. *)
Lemma second_version_route_sets_no_status_witness :
  V1.call_route V1Sample.String_of V1Sample.json V1Sample.status_json
    V1Sample.rpc (HttpSample.post V1Sample.fetch_call) HttpSample.response
    V1Sample.start =
  (Normal tt,
   {| world := [(None, V1.EnvelopeBody {| V1.success := false; V1.data := None;
                                          V1.error := Some "timeout" |})];
      trace := [Validated (HttpSample.post V1Sample.fetch_call);
                Invoked "fetch"
                  {| auth := [];
                     req := Some (HttpSample.post V1Sample.fetch_call);
                     res := Some HttpSample.response |}
                  [];
                ConsoleError (LogThrown (ThrownError "timeout"))] |}).
Proof.
  apply (second_version_route_sets_no_status V1Sample.World V1Sample.String_of
           V1Sample.json V1Sample.status_json V1Sample.rpc
           (HttpSample.post V1Sample.fetch_call) HttpSample.response
           V1Sample.start
           {| V1.success := false; V1.data := None; V1.error := Some "timeout" |}
           {| world := [];
              trace := [Validated (HttpSample.post V1Sample.fetch_call);
                        Invoked "fetch"
                          {| auth := [];
                             req := Some (HttpSample.post V1Sample.fetch_call);
                             res := Some HttpSample.response |}
                          [];
                        ConsoleError (LogThrown (ThrownError "timeout"))] |}).
  - reflexivity.
  - reflexivity.
  - reflexivity.
  - reflexivity.
  - reflexivity.
Defined.

(** X23 on the sample of the second version: the validator's message is
    in the 500 reply. *)
Lemma second_version_route_shows_the_exception_witness :
  V1.call_route V1Sample.String_of V1Sample.json V1Sample.status_json
    V1Sample.broken (HttpSample.post V1Sample.fetch_call) HttpSample.response
    V1Sample.start =
  (Normal tt,
   {| world := [(Some 500%float,
                 V1.ErrorBody "Internal server error Error: jwt secret not configured")];
      trace := [Validated (HttpSample.post V1Sample.fetch_call)] |}).
Proof.
  apply (second_version_route_shows_the_exception V1Sample.World
           V1Sample.String_of V1Sample.json V1Sample.status_json
           V1Sample.broken (HttpSample.post V1Sample.fetch_call)
           HttpSample.response V1Sample.start
           (ThrownError "jwt secret not configured")
           {| world := [];
              trace := [Validated (HttpSample.post V1Sample.fetch_call)] |}).
  - reflexivity.
  - reflexivity.
  - reflexivity.
  - reflexivity.
  - reflexivity.
Defined.

(** X24 on the sample host: under [frozen] the call counter stays at 0. *)
Lemma refused_metadata_escapes_witness :
  handler (set_validator Sample.rpc Sample.frozen)
          (Sample.call_of "echo" (JArr [JStr "hi"]))
          Sample.request Sample.response Sample.start =
  (Throw (ThrownError "Cannot add property req, object is not extensible"),
   {| world := 0; trace := [Validated Sample.request] |}).
Proof.
  apply (refused_metadata_escapes Sample.World
           (set_validator Sample.rpc Sample.frozen)
           (Sample.call_of "echo" (JArr [JStr "hi"]))
           Sample.request Sample.response Sample.start "echo" Sample.echo
           {| ValidatorReturn.success := JBool true;
              ValidatorReturn.metadata :=
                Some {| properties := {| auth := []; req := None; res := None |};
                        refuses := Some (ThrownError
                          "Cannot add property req, object is not extensible") |} |}
           0).
  - split; [reflexivity|]. split; [discriminate | right; reflexivity].
  - reflexivity.
  - reflexivity.
  - discriminate.
  - reflexivity.
Defined.

(** X25 on the sample of the second version. *)
Lemma second_version_refused_metadata_escapes_witness :
  V1.handler V1Sample.String_of V1Sample.frozen (as_request V1Sample.fetch_call)
             (HttpSample.post V1Sample.fetch_call) HttpSample.response
             V1Sample.start =
  (Throw (ThrownError "Cannot add property req, object is not extensible"),
   {| world := [];
      trace := [Validated (HttpSample.post V1Sample.fetch_call)] |}).
Proof.
  apply (second_version_refused_metadata_escapes V1Sample.World
           V1Sample.String_of V1Sample.frozen (as_request V1Sample.fetch_call)
           (HttpSample.post V1Sample.fetch_call) HttpSample.response
           V1Sample.start "fetch" V1Sample.fetch
           {| ValidatorReturn.success := JBool true;
              ValidatorReturn.metadata :=
                Some {| properties := {| auth := []; req := None; res := None |};
                        refuses := Some (ThrownError
                          "Cannot add property req, object is not extensible") |} |}
           []).
  - split; [reflexivity|]. split; [discriminate | left; reflexivity].
  - reflexivity.
  - reflexivity.
  - discriminate.
  - reflexivity.
Defined.
